(** * LiveAI risk engine: Black-76 kernel, fragility score, regimes,
      shock scenarios and the risk event detector

    A shallow embedding of the Python modules
      - [config/settings.py]        (RiskThresholds, SystemConfig)
      - [config/instruments.py]     (OptionContract, DEFAULT_OPTION)
      - [pathway_pipeline/greeks.py]
      - [pathway_pipeline/risk.py]
      - [pathway_pipeline/events.py]
    together with the properties of the specification that concern them
    (C1 to C10) and further properties of the same code (X1 to X30).

    Numbers.  A Python [float] is an IEEE-754 binary64 value; it is modelled by
    Rocq's primitive [float], whose operations are specified by [SpecFloat]
    (round to nearest even, NaN, signed zeros and infinities included).  The
    pricing kernel is written once, over an interface [PyNum] of the
    arithmetic it uses, and is read at two instances: binary64 (what the
    program computes with) and the real numbers (the exact arithmetic in which
    the Black-76 identities are stated).

    Exceptions.  Python code that can raise lives in the monad [Py]. *)

From Stdlib Require Import ZArith QArith Qreals Reals Lra Lia Ascii String.
From Stdlib Require Import Floats.
From stdpp Require Import base gmap strings list pretty.

#[local] Set Warnings "-inexact-float".

(* ================================================================== *)
(** ** Python exceptions *)
(* ================================================================== *)

Inductive PyExc : Type :=
  | ZeroDivisionError
  | OverflowError
  | ValueError.

Inductive Py (A : Type) : Type :=
  | Ok (a : A)
  | Raise (e : PyExc).
Arguments Ok {A} a.
Arguments Raise {A} e.

#[global] Instance Py_ret : MRet Py := fun _ a => Ok a.
#[global] Instance Py_bind : MBind Py := fun _ _ f m =>
  match m with
  | Ok a => f a
  | Raise e => Raise e
  end.

(* ================================================================== *)
(** ** binary64 helpers: the Python and NumPy operations on floats *)
(* ================================================================== *)

Module F64.
#[local] Open Scope float_scope.

(** [int -> float] conversion (exact for the integers used here, rounded to
    nearest even otherwise). *)
Definition of_Z (z : Z) : float :=
  SF2Prim (binary_normalize prec emax z 0 false).

(** [x / y] on Python floats raises on a zero divisor (of either sign). *)
Definition truediv (x y : float) : Py float :=
  if is_zero y then Raise ZeroDivisionError else Ok (x / y).

(** The builtins [min(a, b)] and [max(a, b)]: the first argument is kept
    unless the second compares strictly below (above) it. *)
Definition py_min (a b : float) : float := if b <? a then b else a.
Definition py_max (a b : float) : float := if a <? b then b else a.

(** [np.clip(x, lo, hi)] on a scalar: [minimum(maximum(x, lo), hi)], both
    propagating a NaN first argument. *)
Definition np_maximum (a b : float) : float :=
  if is_nan a then a else if b <? a then a else b.
Definition np_minimum (a b : float) : float :=
  if is_nan a then a else if a <? b then a else b.
Definition np_clip (x lo hi : float) : float :=
  np_minimum (np_maximum x lo) hi.

(** [int(x)]: truncation toward zero; NaN and the infinities raise. *)
Definition py_int (x : float) : Py Z :=
  match Prim2SF x with
  | S754_nan => Raise ValueError
  | S754_infinity _ => Raise OverflowError
  | S754_zero _ => Ok 0%Z
  | S754_finite s m e => Ok (cond_Zopp s (Z.shiftl (Zpos m) e))
  end.
End F64.

(* ================================================================== *)
(** ** The arithmetic interface of the pricing kernel *)
(* ================================================================== *)

(** What greeks.py and instruments.py use of their numbers.  [div] is IEEE
    division (what NumPy scalars compute, and Python's [/] by a non-zero
    literal); [truediv] is Python's [/] between two floats, which raises on a
    zero divisor; [pow2] is [x ** 2], which can raise [OverflowError].
    [np_log], [np_sqrt], [np_exp] are NumPy's, [norm_cdf] and [norm_pdf] are
    [scipy.stats.norm.cdf] and [.pdf]. *)
Class PyNum (T : Type) : Type := {
  lit : Q -> T;
  of_int : Z -> T;
  add : T -> T -> T;
  sub : T -> T -> T;
  mul : T -> T -> T;
  div : T -> T -> T;
  neg : T -> T;
  truediv : T -> T -> Py T;
  pow2 : T -> Py T;
  le : T -> T -> bool;
  lt : T -> T -> bool;
  np_log : T -> T;
  np_sqrt : T -> T;
  np_exp : T -> T;
  norm_cdf : T -> T;
  norm_pdf : T -> T
}.

Declare Scope num_scope.
Delimit Scope num_scope with num.
Infix "+" := add : num_scope.
Infix "-" := sub : num_scope.
Infix "*" := mul : num_scope.
Infix "/" := div : num_scope.
Notation "- x" := (neg x) : num_scope.
Infix "<=?" := le : num_scope.
Infix "<?" := lt : num_scope.

(** The binary64 instance.  The transcendental functions of NumPy and SciPy
    and C's [pow] are library code, not code of this program: they are taken
    as given. *)
Record FloatLib : Type := {
  lib_log : float -> float;
  lib_exp : float -> float;
  lib_cdf : float -> float;
  lib_pdf : float -> float;
  lib_pow2 : float -> Py float
}.

Definition lit64 (q : Q) : float :=
  (F64.of_Z (Qnum q) / F64.of_Z (Zpos (Qden q)))%float.

#[global] Instance Float64 (L : FloatLib) : PyNum float := {|
  lit := lit64;
  of_int := F64.of_Z;
  add := PrimFloat.add;
  sub := PrimFloat.sub;
  mul := PrimFloat.mul;
  div := PrimFloat.div;
  neg := PrimFloat.opp;
  truediv := F64.truediv;
  pow2 := lib_pow2 L;
  le := PrimFloat.leb;
  lt := PrimFloat.ltb;
  np_log := lib_log L;
  np_sqrt := PrimFloat.sqrt;
  np_exp := lib_exp L;
  norm_cdf := lib_cdf L;
  norm_pdf := lib_pdf L
|}.





(* ================================================================== *)
(** ** config/instruments.py and pathway_pipeline/greeks.py *)
(* ================================================================== *)

(** A [datetime] is an instant counted in microseconds; a [timedelta] is a
    difference of two, and its [.days] is the floor of its number of days. *)
Definition datetime : Type := Z.
Definition timedelta : Type := Z.
Definition microseconds_per_day : Z := 86400000000%Z.
Definition timedelta_of_days (d : Z) : timedelta := (d * microseconds_per_day)%Z.
Definition days (d : timedelta) : Z := (d / microseconds_per_day)%Z.

Record OptionContract (T : Type) : Type := {
  symbol : string;
  underlying : string;
  option_type : string;
  strike : T;
  expiration : datetime;
  risk_free_rate : T
}.
Arguments symbol {T} _.
Arguments underlying {T} _.
Arguments option_type {T} _.
Arguments strike {T} _.
Arguments expiration {T} _.
Arguments risk_free_rate {T} _.

Section Kernel.
Context {T : Type} `{PyNum T}.

(** [import_time] is the clock when instruments.py is loaded (the default
    contracts expire 90 days later); [datetime_now] is the clock read by a
    call that is given no [current_time]. *)
Variable import_time : datetime.
Variable datetime_now : datetime.

#[local] Open Scope num_scope.

Definition num_max (a b : T) : T := if a <? b then b else a.

(** [OptionContract.time_to_expiration_years] *)
Definition time_to_expiration_years
    (self : OptionContract T) (current_time : option datetime) : T :=
  let current_time := default datetime_now current_time in
  let days_remaining := days (expiration self - current_time)%Z in
  num_max (of_int days_remaining / lit 365.0) (lit 0.0001).

Definition GOLD_CALL_OPTION : OptionContract T := {|
  symbol := "GC_C_2100";
  underlying := "GC";
  option_type := "call";
  strike := lit 2100.0;
  expiration := (import_time + timedelta_of_days 90)%Z;
  risk_free_rate := lit 0.045
|}.

Definition GOLD_PUT_OPTION : OptionContract T := {|
  symbol := "GC_P_2000";
  underlying := "GC";
  option_type := "put";
  strike := lit 2000.0;
  expiration := (import_time + timedelta_of_days 90)%Z;
  risk_free_rate := lit 0.045
|}.

Definition DEFAULT_OPTION : OptionContract T := GOLD_CALL_OPTION.

(** [black_76_price] *)
Definition black_76_price
    (futures_price strike time_to_expiration risk_free_rate volatility : T)
    (option_type : string) : Py T :=
  if time_to_expiration <=? lit 0 then
    if String.eqb option_type "call"
    then Ok (num_max (futures_price - strike) (lit 0.0))
    else Ok (num_max (strike - futures_price) (lit 0.0))
  else
    q ← truediv futures_price strike;
    v2 ← pow2 volatility;
    let d1 := (np_log q + (v2 / lit 2) * time_to_expiration) /
              (volatility * np_sqrt time_to_expiration) in
    let d2 := d1 - volatility * np_sqrt time_to_expiration in
    let discount := np_exp (- risk_free_rate * time_to_expiration) in
    if String.eqb option_type "call"
    then Ok (discount * (futures_price * norm_cdf d1 - strike * norm_cdf d2))
    else Ok (discount * (strike * norm_cdf (- d2) - futures_price * norm_cdf (- d1))).

(** [compute_greeks]: the dictionary with keys delta, gamma, theta, vega,
    rho. *)
Definition compute_greeks
    (futures_price strike time_to_expiration risk_free_rate volatility : T)
    (option_type : string) : Py (gmap string T) :=
  let time_to_expiration :=
    if time_to_expiration <=? lit 0.0001 then lit 0.0001
    else time_to_expiration in
  q ← truediv futures_price strike;
  v2 ← pow2 volatility;
  let d1 := (np_log q + (v2 / lit 2) * time_to_expiration) /
            (volatility * np_sqrt time_to_expiration) in
  let d2 := d1 - volatility * np_sqrt time_to_expiration in
  let discount := np_exp (- risk_free_rate * time_to_expiration) in
  let delta :=
    if String.eqb option_type "call" then discount * norm_cdf d1
    else - discount * norm_cdf (- d1) in
  let gamma := (discount * norm_pdf d1) /
               (futures_price * volatility * np_sqrt time_to_expiration) in
  let vega := futures_price * discount * norm_pdf d1 *
              np_sqrt time_to_expiration / lit 100.0 in
  let theta :=
    if String.eqb option_type "call" then
      (- futures_price * discount * norm_pdf d1 * volatility /
         (lit 2 * np_sqrt time_to_expiration)
       - risk_free_rate * futures_price * norm_cdf d1 * discount
       + risk_free_rate * strike * discount * norm_cdf d2) / lit 365.0
    else
      (- futures_price * discount * norm_pdf d1 * volatility /
         (lit 2 * np_sqrt time_to_expiration)
       + risk_free_rate * futures_price * norm_cdf (- d1) * discount
       - risk_free_rate * strike * discount * norm_cdf (- d2)) / lit 365.0 in
  let rho :=
    if String.eqb option_type "call" then
      - time_to_expiration *
        (futures_price * norm_cdf d1 - strike * norm_cdf d2) *
        discount / lit 100.0
    else
      - time_to_expiration *
        (strike * norm_cdf (- d2) - futures_price * norm_cdf (- d1)) *
        discount / lit 100.0 in
  Ok (<["delta" := delta]> (<["gamma" := gamma]> (<["theta" := theta]>
      (<["vega" := vega]> (<["rho" := rho]> ∅))))).

(** [calculate_option_greeks]: price and Greeks of the default contract. *)
Definition calculate_option_greeks
    (underlying_price : T) (current_time : option datetime)
    (volatility : T) : Py (gmap string T) :=
  let current_time := Some (default datetime_now current_time) in
  let option := DEFAULT_OPTION in
  let tte := time_to_expiration_years option current_time in
  option_price ← black_76_price underlying_price (strike option) tte
                   (risk_free_rate option) volatility (option_type option);
  greeks ← compute_greeks underlying_price (strike option) tte
             (risk_free_rate option) volatility (option_type option);
  Ok (greeks ∪ {[ "option_price" := option_price ]}).

(** [shock_greeks] *)
Definition shock_greeks
    (base_price shock_percent : T) (current_time : option datetime)
    (volatility : T) : Py (gmap string T) :=
  let shocked_price := base_price * (lit 1.0 + shock_percent) in
  calculate_option_greeks shocked_price current_time volatility.
End Kernel.

(* ================================================================== *)
(** ** config/settings.py *)
(* ================================================================== *)

Record RiskThresholds : Type := {
  delta_change_threshold : float;
  gamma_change_threshold : float;
  theta_change_threshold : float;
  vega_change_threshold : float;
  risk_score_min : float;
  risk_score_max : float;
  stable_max : float;
  sensitive_max : float;
  shock_scenarios : list float
}.

(** The dataclass constructor followed by [__post_init__]: every field is
    stored as given; only an absent [shock_scenarios] is replaced. *)
Definition RiskThresholds_new
    (delta_change_threshold gamma_change_threshold
     theta_change_threshold vega_change_threshold
     risk_score_min risk_score_max stable_max sensitive_max : float)
    (shock_scenarios : option (list float)) : Py RiskThresholds :=
  let shock_scenarios :=
    match shock_scenarios with
    | None => [0.01; 0.05; -0.01; -0.05]%float
    | Some l => l
    end in
  Ok {| delta_change_threshold := delta_change_threshold;
        gamma_change_threshold := gamma_change_threshold;
        theta_change_threshold := theta_change_threshold;
        vega_change_threshold := vega_change_threshold;
        risk_score_min := risk_score_min;
        risk_score_max := risk_score_max;
        stable_max := stable_max;
        sensitive_max := sensitive_max;
        shock_scenarios := shock_scenarios |}.

(** [RiskThresholds()]: all the defaults of the class. *)
Definition RiskThresholds_default : Py RiskThresholds :=
  RiskThresholds_new 0.05 0.10 0.05 0.10 0.0 100.0 30.0 65.0 None.

(** Of [SystemConfig] only the component read by the risk engine is kept. *)
Record SystemConfig : Type := {
  risk_thresholds : RiskThresholds
}.

Definition SystemConfig_new
    (risk_thresholds : option RiskThresholds) : Py SystemConfig :=
  match risk_thresholds with
  | None => t ← RiskThresholds_default; Ok {| risk_thresholds := t |}
  | Some t => Ok {| risk_thresholds := t |}
  end.

(* ================================================================== *)
(** ** pathway_pipeline/risk.py *)
(* ================================================================== *)

(** [d.get(key, default)] on a dictionary of floats. *)
Definition get (d : gmap string float) (key : string) (dflt : float) : float :=
  default dflt (d !! key).

Section Risk.
Variable lib : FloatLib.
Variable import_time datetime_now : datetime.
(** The global [config] of settings.py. *)
Variable config : SystemConfig.

#[local] Open Scope float_scope.

(** [compute_risk_score] *)
Definition compute_risk_score (greeks : gmap string float) : float :=
  let delta := abs (get greeks "delta" 0.0) in
  let gamma := abs (get greeks "gamma" 0.0) in
  let theta := abs (get greeks "theta" 0.0) in
  let vega := abs (get greeks "vega" 0.0) in
  let w_delta := 0.25 in
  let w_gamma := 0.35 in
  let w_theta := 0.20 in
  let w_vega := 0.20 in
  let delta_score := F64.py_min (delta * 100) 100 in
  let gamma_score := F64.py_min (gamma * 1000) 100 in
  let theta_score := F64.py_min (theta * 10) 100 in
  let vega_score := F64.py_min (vega * 5) 100 in
  let risk_score :=
    w_delta * delta_score +
    w_gamma * gamma_score +
    w_theta * theta_score +
    w_vega * vega_score in
  F64.np_clip risk_score 0.0 100.0.

(** [determine_risk_regime] *)
Definition determine_risk_regime (risk_score : float) : string :=
  let thresholds := risk_thresholds config in
  if risk_score <=? stable_max thresholds then "STABLE"
  else if risk_score <=? sensitive_max thresholds then "SENSITIVE"
  else "FRAGILE".

(** The label of one scenario:
    [f"shock_{'+' if shock_pct >= 0 else ''}{int(shock_pct * 100)}pct"]. *)
Definition shock_label (shock_pct : float) : Py string :=
  n ← F64.py_int (shock_pct * 100);
  Ok ("shock_" +:+ (if 0 <=? shock_pct then "+" else "") +:+
      pretty n +:+ "pct").

(** [compute_shock_scenarios]: the loop over the configured fractions,
    each result stored under its label (a later equal label overwrites). *)
Definition compute_shock_scenarios
    (base_price : float) (current_time : option datetime)
    (volatility : float) : Py (gmap string (gmap string float)) :=
  foldl
    (fun acc shock_pct =>
       scenarios ← acc;
       shocked_greeks ← shock_greeks (H := Float64 lib) import_time datetime_now
                          base_price shock_pct current_time volatility;
       label ← shock_label shock_pct;
       Ok (<[label := shocked_greeks]> scenarios))
    (Ok ∅)
    (shock_scenarios (risk_thresholds config)).
End Risk.

(* ================================================================== *)
(** ** pathway_pipeline/events.py *)
(* ================================================================== *)

(** The metrics dictionary handed to the detector (the one built by
    [compute_full_risk_metrics]), each key with the type it is given there;
    [None] is an absent key, which [.get] replaces by its default. *)
Record Metrics : Type := {
  m_timestamp : option string;
  m_instrument_id : option string;
  m_underlying_price : option float;
  m_option_price : option float;
  m_delta : option float;
  m_gamma : option float;
  m_theta : option float;
  m_vega : option float;
  m_rho : option float;
  m_risk_score : option float;
  m_risk_regime : option string
}.

Record RiskEvent : Type := {
  timestamp : string;
  event_type : string;
  severity : string;
  description : string;
  old_value : float;
  new_value : float;
  change_pct : float
}.

Record RiskEventDetector : Type := {
  previous_metrics : option Metrics;
  event_history : list RiskEvent;
  max_history_size : Z
}.

(** [RiskEventDetector.__init__] *)
Definition RiskEventDetector_new : RiskEventDetector := {|
  previous_metrics := None;
  event_history := [];
  max_history_size := 100
|}.

(** What one call of [detect_events] does: the list it returns, the detector
    it leaves behind, and the records it writes to a log. *)
Record Outcome : Type := {
  returned : list RiskEvent;
  detector : RiskEventDetector;
  logged : list string
}.

(** The slice [l[start:]] of a Python list. *)
Definition slice_from {A : Type} (l : list A) (start : Z) : list A :=
  if (start <? 0)%Z
  then drop (Z.to_nat (Z.max 0 (Z.of_nat (length l) + start))) l
  else drop (Z.to_nat start) l.

Section Events.
Variable config : SystemConfig.
(** [datetime.now().isoformat()] at the call. *)
Variable now_isoformat : string.
(** [format(x, ".<n>f")], Python's fixed-point formatting of a float. *)
Variable format_f : nat -> float -> string.

#[local] Open Scope float_scope.

(** [_significant_change] *)
Definition _significant_change (old_value new_value threshold : float) : Py bool :=
  if abs old_value <? 1e-10 then Ok (threshold <? abs new_value)
  else
    q ← F64.truediv (new_value - old_value) old_value;
    let change_pct := abs q in
    Ok (threshold <=? change_pct).

(** [_calc_change_pct] *)
Definition _calc_change_pct (old_value new_value : float) : Py float :=
  if abs old_value <? 1e-10
  then Ok (if abs new_value <? 1e-10 then 0.0 else 100.0)
  else
    q ← F64.truediv (new_value - old_value) old_value;
    Ok (q * 100.0).

(** [_classify_severity] *)
Definition _classify_severity (old_value new_value threshold : float) : Py string :=
  if abs old_value <? 1e-10 then Ok "MEDIUM"
  else
    q ← F64.truediv (new_value - old_value) old_value;
    let change_pct := abs q in
    if threshold * 3 <=? change_pct then Ok "HIGH"
    else if threshold * 1.5 <=? change_pct then Ok "MEDIUM"
    else Ok "LOW".

(** [_regime_change_severity] *)
Definition regime_order : gmap string Z :=
  <["STABLE" := 0%Z]> (<["SENSITIVE" := 1%Z]> (<["FRAGILE" := 2%Z]> ∅)).

Definition _regime_change_severity (old_regime new_regime : string) : string :=
  let old_level := default 1%Z (regime_order !! old_regime) in
  let new_level := default 1%Z (regime_order !! new_regime) in
  let diff := Z.abs (new_level - old_level) in
  if (2 <=? diff)%Z then "HIGH"
  else if (diff =? 1)%Z then "MEDIUM"
  else "LOW".

(** One "Check <Greek> change" block of [detect_events]: the event list
    extended by the event of this Greek when its change is significant. *)
Definition check_change
    (events : list RiskEvent) (timestamp : string)
    (event_type name : string) (digits : nat)
    (old_value new_value threshold : float) : Py (list RiskEvent) :=
  significant ← _significant_change old_value new_value threshold;
  if significant : bool then
    sev ← _classify_severity old_value new_value threshold;
    pct ← _calc_change_pct old_value new_value;
    Ok (events ++ [{|
      timestamp := timestamp;
      event_type := event_type;
      severity := sev;
      description := name +:+ " changed from " +:+ format_f digits old_value
                       +:+ " to " +:+ format_f digits new_value;
      old_value := old_value;
      new_value := new_value;
      change_pct := pct |}])
  else Ok events.

(** [detect_events] *)
Definition detect_events
    (self : RiskEventDetector) (current_metrics : Metrics) : Py Outcome :=
  let events := [] in
  match previous_metrics self with
  | None =>
      Ok {| returned := events;
            detector := {| previous_metrics := Some current_metrics;
                           event_history := event_history self;
                           max_history_size := max_history_size self |};
            logged := [] |}
  | Some previous =>
      let timestamp := default now_isoformat (m_timestamp current_metrics) in
      let thresholds := risk_thresholds config in
      let old_delta := default 0.0 (m_delta previous) in
      let new_delta := default 0.0 (m_delta current_metrics) in
      events ← check_change events timestamp "DELTA_CHANGE" "Delta" 4
                 old_delta new_delta (delta_change_threshold thresholds);
      let old_gamma := default 0.0 (m_gamma previous) in
      let new_gamma := default 0.0 (m_gamma current_metrics) in
      events ← check_change events timestamp "GAMMA_CHANGE" "Gamma" 6
                 old_gamma new_gamma (gamma_change_threshold thresholds);
      let old_theta := default 0.0 (m_theta previous) in
      let new_theta := default 0.0 (m_theta current_metrics) in
      events ← check_change events timestamp "THETA_CHANGE" "Theta" 4
                 old_theta new_theta (theta_change_threshold thresholds);
      let old_vega := default 0.0 (m_vega previous) in
      let new_vega := default 0.0 (m_vega current_metrics) in
      events ← check_change events timestamp "VEGA_CHANGE" "Vega" 4
                 old_vega new_vega (vega_change_threshold thresholds);
      let old_regime := default "UNKNOWN" (m_risk_regime previous) in
      let new_regime := default "UNKNOWN" (m_risk_regime current_metrics) in
      let events :=
        if bool_decide (old_regime ≠ new_regime) then
          events ++ [{|
            timestamp := timestamp;
            event_type := "REGIME_CHANGE";
            severity := _regime_change_severity old_regime new_regime;
            description := "Risk regime transitioned from " +:+ old_regime
                             +:+ " to " +:+ new_regime;
            old_value := 0.0;
            new_value := 0.0;
            change_pct := 0.0 |}]
        else events in
      let history := event_history self ++ events in
      let history :=
        if (max_history_size self <? Z.of_nat (length history))%Z
        then slice_from history (- max_history_size self)
        else history in
      Ok {| returned := events;
            detector := {| previous_metrics := Some current_metrics;
                           event_history := history;
                           max_history_size := max_history_size self |};
            logged := [] |}
  end.

(** [get_recent_events] and [clear_history] *)
Definition get_recent_events (self : RiskEventDetector) (count : Z) : list RiskEvent :=
  slice_from (event_history self) (- count).

Definition clear_history (self : RiskEventDetector) : RiskEventDetector :=
  {| previous_metrics := previous_metrics self;
     event_history := [];
     max_history_size := max_history_size self |}.
End Events.

(* ================================================================== *)
(** ** The rest of risk.py, and the detector over a stream *)
(* ================================================================== *)

(** [detect_significant_change] of risk.py: the test of
    [_significant_change] without its cut-off; the old value is compared
    with zero by [==]. *)
Definition detect_significant_change
    (old_value new_value threshold : float) : Py bool :=
  if (old_value =? 0)%float then Ok (negb (new_value =? 0)%float)
  else
    q ← F64.truediv (new_value - old_value)%float old_value;
    let change_pct := abs q in
    Ok (threshold <=? change_pct)%float.

Section ScenarioStep.
Variable lib : FloatLib.
Variable import_time datetime_now : datetime.
Variable base_price : float.
Variable current_time : option datetime.
Variable volatility : float.

(** The body of the loop of [compute_shock_scenarios]. *)
Definition scenario_step
    (acc : Py (gmap string (gmap string float))) (shock_pct : float)
    : Py (gmap string (gmap string float)) :=
  scenarios ← acc;
  shocked_greeks ← shock_greeks (H := Float64 lib) import_time datetime_now
                     base_price shock_pct current_time volatility;
  label ← shock_label shock_pct;
  Ok (<[label := shocked_greeks]> scenarios).
End ScenarioStep.

(** One detector driven by a stream of snapshots, call after call, as the
    loop of demo_standalone.py and the pipeline of app.py drive it; each
    snapshot comes with the clock reading of its call. *)
Fixpoint feed (config : SystemConfig) (format_f : nat -> float -> string)
    (self : RiskEventDetector) (ticks : list (string * Metrics))
    : Py (list (list RiskEvent) * RiskEventDetector) :=
  match ticks with
  | [] => Ok ([], self)
  | (now_isoformat, current_metrics) :: rest =>
      out ← detect_events config now_isoformat format_f self current_metrics;
      r ← feed config format_f (detector out) rest;
      Ok (returned out :: r.1, r.2)
  end.

(** The order in which [detect_events] runs its five checks. *)
Definition canonical_order : list string :=
  ["DELTA_CHANGE"; "GAMMA_CHANGE"; "THETA_CHANGE"; "VEGA_CHANGE"; "REGIME_CHANGE"].

(** The level [_regime_change_severity] gives a regime name:
    [regime_order.get(regime, 1)]. *)
Definition regime_level (regime : string) : Z :=
  default 1%Z (regime_order !! regime).

(* ================================================================== *)
(** ** pathway_pipeline/risk.py: the full metrics of a tick *)
(* ================================================================== *)

(** What [datetime.fromisoformat] builds: a naive datetime, or one aware of
    a UTC offset. *)
Inductive parsed_datetime : Type :=
  | naive (t : datetime)
  | aware (t : datetime).

(** [s.replace(old, new)] for a one-character [old]. *)
Fixpoint str_replace (old : ascii) (new s : string) : string :=
  match s with
  | EmptyString => EmptyString
  | String c rest =>
      if Ascii.eqb c old then new +:+ str_replace old new rest
      else String c (str_replace old new rest)
  end.

(** The exceptions that can leave [compute_full_risk_metrics]: those of the
    kernel and of the scenario labels, KeyError from a subscript, and
    TypeError from subtracting an aware datetime from a naive one. *)
Inductive RiskExc : Type :=
  | Arithmetic (e : PyExc)
  | KeyError (key : string)
  | TypeError.

Inductive PyRisk (A : Type) : Type :=
  | Returns (a : A)
  | Raises (e : RiskExc).
Arguments Returns {A} a.
Arguments Raises {A} e.

#[global] Instance PyRisk_ret : MRet PyRisk := fun _ a => Returns a.
#[global] Instance PyRisk_bind : MBind PyRisk := fun _ _ f m =>
  match m with
  | Returns a => f a
  | Raises e => Raises e
  end.

(** A call into the kernel or the scenario loop. *)
Definition call {A : Type} (m : Py A) : PyRisk A :=
  match m with
  | Ok a => Returns a
  | Raise e => Raises (Arithmetic e)
  end.

(** The subscript [d[key]]. *)
Definition getitem (d : gmap string float) (key : string) : PyRisk float :=
  match d !! key with
  | Some v => Returns v
  | None => Raises (KeyError key)
  end.

(** The dictionary [compute_full_risk_metrics] returns: the eleven keys the
    detector's snapshot has, and the four shock keys. *)
Record FullRiskMetrics : Type := {
  snapshot : Metrics;
  shock_up_1pct : float;
  shock_down_1pct : float;
  shock_up_5pct : float;
  shock_down_5pct : float
}.

Section FullRisk.
Variable lib : FloatLib.
Variable import_time datetime_now : datetime.
Variable config : SystemConfig.
(** [datetime.fromisoformat]; [None] when it raises. *)
Variable fromisoformat : string -> option parsed_datetime.

#[local] Open Scope float_scope.

(** [compute_full_risk_metrics].  The bare [except] turns every failure of
    the parse into the clock reading.  [DEFAULT_OPTION.expiration] is a naive
    datetime, so the subtraction [self.expiration - current_time], the first
    use [calculate_option_greeks] makes of [current_time], raises TypeError
    on an aware one. *)
Definition compute_full_risk_metrics
    (underlying_price : float) (timestamp instrument_id : string)
    (volatility : float) : PyRisk FullRiskMetrics :=
  let current_time :=
    match fromisoformat (str_replace "Z"%char "+00:00" timestamp) with
    | Some t => t
    | None => naive datetime_now
    end in
  match current_time with
  | aware _ => Raises TypeError
  | naive current_time =>
      greeks_data ← call (calculate_option_greeks (H := Float64 lib)
                            import_time datetime_now
                            underlying_price (Some current_time) volatility);
      let risk_score := compute_risk_score greeks_data in
      let risk_regime := determine_risk_regime config risk_score in
      shocks ← call (compute_shock_scenarios lib import_time datetime_now config
                       underlying_price (Some current_time) volatility);
      option_price ← getitem greeks_data "option_price";
      delta ← getitem greeks_data "delta";
      gamma ← getitem greeks_data "gamma";
      theta ← getitem greeks_data "theta";
      vega ← getitem greeks_data "vega";
      rho ← getitem greeks_data "rho";
      Returns {|
        snapshot := {|
          m_timestamp := Some timestamp;
          m_instrument_id := Some instrument_id;
          m_underlying_price := Some underlying_price;
          m_option_price := Some option_price;
          m_delta := Some delta;
          m_gamma := Some gamma;
          m_theta := Some theta;
          m_vega := Some vega;
          m_rho := Some rho;
          m_risk_score := Some risk_score;
          m_risk_regime := Some risk_regime
        |};
        shock_up_1pct := get (default ∅ (shocks !! "shock_+1pct")) "delta" 0.0;
        shock_down_1pct := get (default ∅ (shocks !! "shock_-1pct")) "delta" 0.0;
        shock_up_5pct := get (default ∅ (shocks !! "shock_+5pct")) "delta" 0.0;
        shock_down_5pct := get (default ∅ (shocks !! "shock_-5pct")) "delta" 0.0
      |}
  end.
End FullRisk.

(** The datetime [compute_full_risk_metrics] computes with: the naive one
    parsed from the timestamp, or the clock reading when the parse fails. *)
Definition clock_used (datetime_now : datetime)
    (fromisoformat : string -> option parsed_datetime)
    (timestamp : string) (current_time : datetime) : Prop :=
  fromisoformat (str_replace "Z" "+00:00" timestamp) = Some (naive current_time) \/
  (fromisoformat (str_replace "Z" "+00:00" timestamp) = None /\
   current_time = datetime_now).

(** What a shock key of the full metrics reads for a label: the delta of the
    last configured fraction carrying that label, at the shocked price, or
    0.0 when no configured fraction carries it. *)
Definition shock_reading (lib : FloatLib) (import_time datetime_now : datetime)
    (config : SystemConfig) (base_price : float) (current_time : datetime)
    (volatility : float) (label : string) (value : float) : Prop :=
  (exists before shock_pct after greeks,
     shock_scenarios (risk_thresholds config) = before ++ shock_pct :: after /\
     shock_label shock_pct = Ok label /\
     (forall s, s ∈ after -> shock_label s <> Ok label) /\
     shock_greeks (H := Float64 lib) import_time datetime_now
       base_price shock_pct (Some current_time) volatility = Ok greeks /\
     greeks !! "delta" = Some value)
  \/
  ((forall s, s ∈ shock_scenarios (risk_thresholds config) ->
              shock_label s <> Ok label) /\
   value = 0%float).




(* ================================================================== *)
(** ** The vocabulary of the specification *)
(* ================================================================== *)

(** The configuration [SystemConfig()] that settings.py builds at import. *)
Definition default_thresholds : RiskThresholds := {|
  delta_change_threshold := 0.05;
  gamma_change_threshold := 0.10;
  theta_change_threshold := 0.05;
  vega_change_threshold := 0.10;
  risk_score_min := 0.0;
  risk_score_max := 100.0;
  stable_max := 30.0;
  sensitive_max := 65.0;
  shock_scenarios := [0.01; 0.05; -0.01; -0.05]%float
|}.

Definition default_config : SystemConfig :=
  {| risk_thresholds := default_thresholds |}.

(** The four Greeks the detector watches, with the dictionary key, event
    type, threshold and description format that its block of [detect_events]
    uses for each. *)
Inductive Greek : Type := Delta | Gamma | Theta | Vega.

Definition greek_value (g : Greek) (m : Metrics) : float :=
  default 0.0%float
    match g with
    | Delta => m_delta m
    | Gamma => m_gamma m
    | Theta => m_theta m
    | Vega => m_vega m
    end.

Definition greek_threshold (g : Greek) (t : RiskThresholds) : float :=
  match g with
  | Delta => delta_change_threshold t
  | Gamma => gamma_change_threshold t
  | Theta => theta_change_threshold t
  | Vega => vega_change_threshold t
  end.

Definition greek_event_type (g : Greek) : string :=
  match g with
  | Delta => "DELTA_CHANGE"
  | Gamma => "GAMMA_CHANGE"
  | Theta => "THETA_CHANGE"
  | Vega => "VEGA_CHANGE"
  end.

Definition greek_name (g : Greek) : string :=
  match g with
  | Delta => "Delta"
  | Gamma => "Gamma"
  | Theta => "Theta"
  | Vega => "Vega"
  end.

Definition greek_digits (g : Greek) : nat :=
  match g with Gamma => 6%nat | _ => 4%nat end.

(** An event of the given type is in the list. *)
Definition emitted (ty : string) (events : list RiskEvent) : Prop :=
  exists e, e ∈ events /\ event_type e = ty.

(** The emission rule in the words of the specification: above the cut-off
    the relative change is compared with the threshold, inclusively; below
    it the new magnitude is, strictly. *)
Definition relative_change (old_value new_value : float) : float :=
  abs ((new_value - old_value) / old_value)%float.

Definition change_rule (old_value new_value threshold : float) : Prop :=
  ((1e-10 <=? abs old_value)%float = true /\
   (threshold <=? relative_change old_value new_value)%float = true)
  \/
  ((abs old_value <? 1e-10)%float = true /\
   (threshold <? abs new_value)%float = true).

(** The score in the words of the specification, with the mathematical
    [min], [max] and [clamp] on floats. *)
Definition fmin (a b : float) : float := if (a <=? b)%float then a else b.
Definition fmax (a b : float) : float := if (a <=? b)%float then b else a.
Definition clamp (x lo hi : float) : float := fmin (fmax x lo) hi.

Definition risk_score_formula (delta gamma theta vega : float) : float :=
  (clamp (0.25 * fmin (abs delta * 100) 100 +
          0.35 * fmin (abs gamma * 1000) 100 +
          0.20 * fmin (abs theta * 10) 100 +
          0.20 * fmin (abs vega * 5) 100) 0 100)%float.


(* ================================================================== *)
(** ** The detector as total functions *)
(* ================================================================== *)

(** The guard [abs(old_value) < 1e-10] keeps every division of events.py away
    from a zero divisor, so its three helpers and [detect_events] never
    raise; these are the values they return. *)
Section DetectorValues.
Variable config : SystemConfig.
Variable now_isoformat : string.
Variable format_f : nat -> float -> string.

#[local] Open Scope float_scope.

Definition significant (old_value new_value threshold : float) : bool :=
  if abs old_value <? 1e-10 then threshold <? abs new_value
  else threshold <=? abs ((new_value - old_value) / old_value).

Definition severity_of (old_value new_value threshold : float) : string :=
  if abs old_value <? 1e-10 then "MEDIUM"
  else
    let change_pct := abs ((new_value - old_value) / old_value) in
    if threshold * 3 <=? change_pct then "HIGH"
    else if threshold * 1.5 <=? change_pct then "MEDIUM"
    else "LOW".

Definition change_pct_of (old_value new_value : float) : float :=
  if abs old_value <? 1e-10
  then (if abs new_value <? 1e-10 then 0.0 else 100.0)
  else (new_value - old_value) / old_value * 100.0.

Definition change_events
    (timestamp event_type name : string) (digits : nat)
    (old_value new_value threshold : float) : list RiskEvent :=
  if significant old_value new_value threshold then
    [{| timestamp := timestamp;
        event_type := event_type;
        severity := severity_of old_value new_value threshold;
        description := name +:+ " changed from " +:+ format_f digits old_value
                         +:+ " to " +:+ format_f digits new_value;
        old_value := old_value;
        new_value := new_value;
        change_pct := change_pct_of old_value new_value |}]
  else [].

Definition regime_events (timestamp old_regime new_regime : string) : list RiskEvent :=
  if bool_decide (old_regime ≠ new_regime) then
    [{| timestamp := timestamp;
        event_type := "REGIME_CHANGE";
        severity := _regime_change_severity old_regime new_regime;
        description := "Risk regime transitioned from " +:+ old_regime
                         +:+ " to " +:+ new_regime;
        old_value := 0.0;
        new_value := 0.0;
        change_pct := 0.0 |}]
  else [].

Definition greek_events (g : Greek) (previous current_metrics : Metrics) : list RiskEvent :=
  change_events (default now_isoformat (m_timestamp current_metrics))
    (greek_event_type g) (greek_name g) (greek_digits g)
    (greek_value g previous) (greek_value g current_metrics)
    (greek_threshold g (risk_thresholds config)).

Definition warm_events (previous current_metrics : Metrics) : list RiskEvent :=
  greek_events Delta previous current_metrics ++
  greek_events Gamma previous current_metrics ++
  greek_events Theta previous current_metrics ++
  greek_events Vega previous current_metrics ++
  regime_events (default now_isoformat (m_timestamp current_metrics))
    (default "UNKNOWN" (m_risk_regime previous))
    (default "UNKNOWN" (m_risk_regime current_metrics)).

Definition trimmed (limit : Z) (history : list RiskEvent) : list RiskEvent :=
  if (limit <? Z.of_nat (length history))%Z
  then slice_from history (- limit)
  else history.
End DetectorValues.

(* ================================================================== *)
(** ** Classes of floats *)
(* ================================================================== *)

Definition SFis_nan (x : spec_float) : bool :=
  match x with S754_nan => true | _ => false end.

Definition SFnonneg (x : spec_float) : bool :=
  match x with
  | S754_zero false | S754_infinity false | S754_finite false _ _ => true
  | _ => false
  end.

Definition SFfinite (x : spec_float) : bool :=
  match x with
  | S754_zero _ | S754_finite _ _ _ => true
  | _ => false
  end.

Definition nonneg (x : float) : Prop := SFnonneg (Prim2SF x) = true.
Definition finite (x : float) : Prop := SFfinite (Prim2SF x) = true.

(* ================================================================== *)
(** ** Sample data *)
(* ================================================================== *)


(** A metrics dictionary carrying the given Greeks and regime. *)
Definition metrics_of (delta gamma theta vega : float) (regime : string) : Metrics := {|
  m_timestamp := Some "2024-01-01T00:00:00";
  m_instrument_id := Some "GC";
  m_underlying_price := None;
  m_option_price := None;
  m_delta := Some delta;
  m_gamma := Some gamma;
  m_theta := Some theta;
  m_vega := Some vega;
  m_rho := None;
  m_risk_score := None;
  m_risk_regime := Some regime
|}.

(** A detector that has seen one snapshot. *)
Definition warm_detector (previous : Metrics) : RiskEventDetector := {|
  previous_metrics := Some previous;
  event_history := [];
  max_history_size := 100
|}.

Definition plain_format (digits : nat) (x : float) : string := "".

(** A Greeks dictionary without theta and vega. *)
Definition sample_greeks : gmap string float :=
  <["delta" := 0.45%float]> (<["gamma" := 0.002%float]> ∅).

(** A stand-in for the numerical library (first-order approximations of the
    logarithm and the exponential, a flat distribution), at which the
    statements about an arbitrary library are instantiated. *)
Definition sample_lib : FloatLib := {|
  lib_log := fun x => (x - 1)%float;
  lib_exp := fun x => (1 + x)%float;
  lib_cdf := fun _ => 0.5%float;
  lib_pdf := fun _ => 0.4%float;
  lib_pow2 := fun x => Ok (x * x)%float
|}.

(** A Greeks dictionary whose delta is NaN. *)
Definition nan_greeks : gmap string float :=
  <["delta" := nan]> (<["gamma" := 0.002%float]> ∅).

(** A configuration whose regime cut-offs are the wrong way round, and one
    whose shock set holds a NaN. *)
Definition unordered_config : SystemConfig := {|
  risk_thresholds := {|
    delta_change_threshold := 0.05;
    gamma_change_threshold := 0.10;
    theta_change_threshold := 0.05;
    vega_change_threshold := 0.10;
    risk_score_min := 0.0;
    risk_score_max := 100.0;
    stable_max := 65.0;
    sensitive_max := 30.0;
    shock_scenarios := [0.01; 0.05; -0.01; -0.05]%float
  |}
|}.

Definition nan_shock_config : SystemConfig := {|
  risk_thresholds := {|
    delta_change_threshold := 0.05;
    gamma_change_threshold := 0.10;
    theta_change_threshold := 0.05;
    vega_change_threshold := 0.10;
    risk_score_min := 0.0;
    risk_score_max := 100.0;
    stable_max := 30.0;
    sensitive_max := 65.0;
    shock_scenarios := [0.01; nan]%float
  |}
|}.

(** The shock table and the full metrics of one tick: price 2050 at the
    moment of import, volatility 0.20, the sample library, the default
    configuration, a timestamp that does not parse. *)
Definition sample_scenarios : gmap string (gmap string float) :=
  match compute_shock_scenarios sample_lib 0%Z 0%Z default_config
          2050%float (Some 0%Z) 0.2%float with
  | Ok scenarios => scenarios
  | Raise _ => ∅
  end.

Definition sample_full_metrics : FullRiskMetrics :=
  match compute_full_risk_metrics sample_lib 0%Z 0%Z default_config (fun _ => None)
          2050%float "now" "GC" 0.2%float with
  | Returns m => m
  | Raises _ =>
      {| snapshot := metrics_of 0 0 0 0 "";
         shock_up_1pct := 0; shock_down_1pct := 0;
         shock_up_5pct := 0; shock_down_5pct := 0 |}
  end.

(** Two snapshots of a stream: delta up by a quarter, theta away from zero,
    the regime from STABLE to FRAGILE; and a snapshot without a usable
    regime. *)
Definition calm_snapshot : Metrics := metrics_of 0.40 0.002 0 0.25 "STABLE".
Definition moved_snapshot : Metrics := metrics_of 0.50 0.002 0.3 0.25 "FRAGILE".
Definition unnamed_snapshot : Metrics := metrics_of 0.40 0.002 0 0.25 "N/A".
Definition sensitive_snapshot : Metrics := metrics_of 0.40 0.002 0 0.25 "SENSITIVE".

(** A snapshot whose regime is the one [determine_risk_regime] gives a
    score under the default configuration. *)
Definition regime_snapshot (score : float) : Metrics :=
  metrics_of 0.40 0.002 0 0.25 (determine_risk_regime default_config score).

(** Detectors that hold the first and the third of them. *)
Definition calm_detector : RiskEventDetector := warm_detector calm_snapshot.
Definition unnamed_detector : RiskEventDetector := warm_detector unnamed_snapshot.



(* ================================================================== *)
(** * Facts about binary64 *)
(* ================================================================== *)

(** ** The order of [SpecFloat] *)

Section SpecFloatFacts.
Lemma SFcompare_antisym x y c :
  SFcompare x y = Some c -> SFcompare y x = Some (CompOpp c).
Proof.
  destruct x as [sx|sx| |sx mx ex], y as [sy|sy| |sy my ey]; simpl;
    try discriminate;
    try (intros [= <-]; repeat match goal with b : bool |- _ => destruct b end; reflexivity).
  intros [= <-]. f_equal.
  assert (Hm : Pos.compare_cont Eq my mx = CompOpp (Pos.compare_cont Eq mx my)).
  { rewrite Pos.compare_cont_antisym. reflexivity. }
  destruct sx, sy; simpl; try reflexivity;
    rewrite (Z.compare_antisym ex ey), Hm;
    destruct (ex ?= ey)%Z; simpl; try reflexivity;
    destruct (Pos.compare_cont Eq mx my); reflexivity.
Qed.

Lemma SFcompare_None x y :
  SFcompare x y = None <-> SFis_nan x = true \/ SFis_nan y = true.
Proof.
  destruct x as [sx|sx| |sx mx ex], y as [sy|sy| |sy my ey]; simpl;
    split; try discriminate; try tauto; intros [?|?]; discriminate.
Qed.

Lemma SFcompare_refl x : SFis_nan x = false -> SFcompare x x = Some Eq.
Proof.
  destruct x as [s|s| |s m e]; simpl; try discriminate; intros _.
  - reflexivity.
  - destruct s; reflexivity.
  - rewrite Z.compare_refl, Pos.compare_cont_refl. destruct s; reflexivity.
Qed.

(** Transitivity goals on three floats: split on their constructors and
    signs, then on the comparisons of exponents and mantissas. *)
Ltac sf_order x y z :=
  unfold SFleb, SFltb;
  destruct x as [?|?| |? ? ?], y as [?|?| |? ? ?], z as [?|?| |? ? ?];
  simpl; try discriminate; try reflexivity;
  repeat match goal with b : bool |- _ => destruct b end;
  simpl; try discriminate; try reflexivity;
  change (Pos.compare_cont Eq) with Pos.compare;
  repeat match goal with
    | |- context [(?a ?= ?b)%Z] => destruct (Z.compare_spec a b); try lia; subst
    | |- context [(?a ?= ?b)%positive] => destruct (Pos.compare_spec a b); try lia; subst
    end;
  simpl; try discriminate; try reflexivity; try lia.

Lemma SFleb_ltb_trans x y z :
  SFleb x y = true -> SFltb y z = true -> SFltb x z = true.
Proof.
  sf_order x y z.
Qed.

Lemma SFltb_leb_trans x y z :
  SFltb x y = true -> SFleb y z = true -> SFltb x z = true.
Proof.
  sf_order x y z.
Qed.

(** Numerically equal to a non-zero finite float means equal to it. *)
Lemma SFcompare_Eq_finite x s m e :
  SFcompare x (S754_finite s m e) = Some Eq -> x = S754_finite s m e.
Proof.
  destruct x as [sx|sx| |sx mx ex]; simpl; try discriminate.
  - destruct s; discriminate.
  - destruct sx; discriminate.
  - intros [= H].
    destruct sx, s; try discriminate;
      destruct (ex ?= e)%Z eqn:Ee; try discriminate;
      apply Z.compare_eq in Ee; subst ex;
      change (Pos.compare_cont Eq mx m) with (mx ?= m)%positive in H;
      destruct (mx ?= m)%positive eqn:Em; try discriminate;
      apply Pos.compare_eq in Em; subst mx; reflexivity.
Qed.

End SpecFloatFacts.

(** ** Rounding keeps the sign *)

Section Rounding.
#[local] Open Scope Z_scope.

Lemma shr_1_nonneg mrs : 0 <= shr_m mrs -> 0 <= shr_m (shr_1 mrs).
Proof.
  destruct mrs as [m r s]. destruct m as [|p|p]; simpl; try lia;
    destruct p; simpl; lia.
Qed.

Lemma iter_pos_shr_1_nonneg p : forall mrs,
  0 <= shr_m mrs -> 0 <= shr_m (SpecFloat.iter_pos shr_1 p mrs).
Proof.
  induction p as [p IH|p IH|]; simpl; intros mrs Hm.
  - apply IH, IH, shr_1_nonneg, Hm.
  - apply IH, IH, Hm.
  - apply shr_1_nonneg, Hm.
Qed.

Lemma shr_fexp_nonneg m e l :
  0 <= m -> 0 <= shr_m (fst (shr_fexp prec emax m e l)).
Proof.
  intros Hm. unfold shr_fexp, shr.
  assert (H0 : 0 <= shr_m (shr_record_of_loc m l)).
  { destruct l as [|[]]; simpl; assumption. }
  destruct (fexp prec emax (Zdigits2 m + e) - e); simpl;
    auto using iter_pos_shr_1_nonneg.
Qed.

Lemma round_nearest_even_nonneg m l : 0 <= m -> 0 <= round_nearest_even m l.
Proof.
  intros Hm. destruct l as [|[]]; simpl; try lia.
  destruct (Z.even m); lia.
Qed.

(** Rounding a non-negative magnitude never yields NaN, and keeps the sign
    it is given. *)
Lemma binary_round_aux_nonneg mx ex lx :
  0 <= mx -> SFnonneg (binary_round_aux prec emax false mx ex lx) = true.
Proof.
  intros Hm. unfold binary_round_aux.
  pose proof (shr_fexp_nonneg mx ex lx Hm) as H1.
  destruct (shr_fexp prec emax mx ex lx) as [mrs' e']. simpl in H1.
  pose proof (shr_fexp_nonneg _ e' loc_Exact
                (round_nearest_even_nonneg _ (loc_of_shr_record mrs') H1)) as H2.
  destruct (shr_fexp prec emax _ e' loc_Exact) as [mrs'' e'']. simpl in H2.
  destruct (shr_m mrs'') as [|p|p]; try reflexivity; [|lia].
  destruct (e'' <=? emax - prec); reflexivity.
Qed.

Lemma SFmul_nonneg x y :
  SFnonneg x = true -> SFnonneg y = true ->
  SFfinite x = true -> SFfinite y = true ->
  SFnonneg (SF64mul x y) = true.
Proof.
  destruct x as [[]|[]| |[] mx ex], y as [[]|[]| |[] my ey];
    simpl; try discriminate; try reflexivity.
  intros _ _ _ _. apply binary_round_aux_nonneg. lia.
Qed.

Lemma SFadd_nonneg x y :
  SFnonneg x = true -> SFnonneg y = true -> SFnonneg (SF64add x y) = true.
Proof.
  destruct x as [[]|[]| |[] mx ex], y as [[]|[]| |[] my ey];
    simpl; try discriminate; try reflexivity.
  intros _ _. unfold binary_round.
  destruct (shl_align _ _ _) as [mz ez].
  apply binary_round_aux_nonneg. lia.
Qed.
End Rounding.

(** ** Comparisons and NaN on primitive floats *)

Section FloatFacts.
#[local] Open Scope float_scope.

Lemma is_nan_spec x : is_nan x = SFis_nan (Prim2SF x).
Proof.
  unfold is_nan. rewrite FloatAxioms.eqb_spec. unfold SFeqb.
  destruct (SFis_nan (Prim2SF x)) eqn:E.
  - destruct (Prim2SF x); try discriminate. reflexivity.
  - rewrite (SFcompare_refl _ E). reflexivity.
Qed.

Lemma ltb_not_nan x y : (x <? y) = true -> is_nan x = false /\ is_nan y = false.
Proof.
  rewrite FloatAxioms.ltb_spec, !is_nan_spec. unfold SFltb.
  destruct (SFcompare _ _) eqn:E; try discriminate. intros _.
  destruct (Prim2SF x), (Prim2SF y); simpl in *; try discriminate; auto.
Qed.

Lemma leb_not_nan x y : (x <=? y) = true -> is_nan x = false /\ is_nan y = false.
Proof.
  rewrite FloatAxioms.leb_spec, !is_nan_spec. unfold SFleb.
  destruct (SFcompare _ _) eqn:E; try discriminate. intros _.
  destruct (Prim2SF x), (Prim2SF y); simpl in *; try discriminate; auto.
Qed.

Lemma ltb_negb_leb x y :
  is_nan x = false -> is_nan y = false -> (x <? y) = negb (y <=? x).
Proof.
  rewrite FloatAxioms.ltb_spec, FloatAxioms.leb_spec, !is_nan_spec.
  unfold SFltb, SFleb. intros Hx Hy.
  destruct (SFcompare (Prim2SF x) (Prim2SF y)) as [c|] eqn:E.
  - rewrite (SFcompare_antisym _ _ _ E). destruct c; reflexivity.
  - apply SFcompare_None in E. destruct E; congruence.
Qed.

Lemma leb_negb_ltb x y :
  is_nan x = false -> is_nan y = false -> (x <=? y) = negb (y <? x).
Proof.
  intros Hx Hy. rewrite (ltb_negb_leb y x) by assumption.
  symmetry. apply negb_involutive.
Qed.

Lemma leb_refl x : is_nan x = false -> (x <=? x) = true.
Proof.
  rewrite is_nan_spec, FloatAxioms.leb_spec. unfold SFleb. intros H.
  rewrite (SFcompare_refl _ H). reflexivity.
Qed.

Lemma ltb_leb x y : (x <? y) = true -> (x <=? y) = true.
Proof.
  rewrite FloatAxioms.ltb_spec, FloatAxioms.leb_spec. unfold SFltb, SFleb.
  destruct (SFcompare _ _) as [[]|]; congruence.
Qed.

Lemma ltb_asym x y : (x <? y) = true -> (y <=? x) = false.
Proof.
  intros H. destruct (ltb_not_nan _ _ H) as [Hx Hy].
  rewrite (ltb_negb_leb x y Hx Hy) in H.
  destruct (y <=? x); [discriminate | reflexivity].
Qed.

Lemma abs_is_nan x : is_nan (abs x) = is_nan x.
Proof. rewrite !is_nan_spec, FloatAxioms.abs_spec. destruct (Prim2SF x); reflexivity. Qed.

Lemma sub_is_nan x y :
  is_nan x = true \/ is_nan y = true -> is_nan (x - y) = true.
Proof.
  rewrite !is_nan_spec, FloatAxioms.sub_spec. unfold SF64sub.
  destruct (Prim2SF x), (Prim2SF y); simpl; intros [?|?]; congruence.
Qed.

Lemma div_is_nan x y :
  is_nan x = true \/ is_nan y = true -> is_nan (x / y) = true.
Proof.
  rewrite !is_nan_spec, FloatAxioms.div_spec. unfold SF64div.
  destruct (Prim2SF x), (Prim2SF y); simpl; intros [?|?]; congruence.
Qed.

Lemma ltb_nan_false x y :
  is_nan x = true \/ is_nan y = true -> (x <? y) = false.
Proof.
  intros H. destruct (x <? y) eqn:E; [|reflexivity].
  apply ltb_not_nan in E. destruct E, H; congruence.
Qed.

Lemma leb_nan_false x y :
  is_nan x = true \/ is_nan y = true -> (x <=? y) = false.
Proof.
  intros H. destruct (x <=? y) eqn:E; [|reflexivity].
  apply leb_not_nan in E. destruct E, H; congruence.
Qed.

(** A zero is below the detector's cut-off [1e-10]. *)
Lemma is_zero_abs_small x : is_zero x = true -> (abs x <? 1e-10) = true.
Proof.
  unfold is_zero. rewrite FloatAxioms.eqb_spec, FloatAxioms.ltb_spec, FloatAxioms.abs_spec.
  unfold SFeqb.
  destruct (Prim2SF x) as [s|s| |s m e]; simpl; try discriminate.
  - intros _. vm_compute. reflexivity.
  - destruct s; discriminate.
  - change (Prim2SF zero) with (S754_zero false). simpl. destruct s; discriminate.
Qed.
Lemma leb_ltb_trans x y z : (x <=? y) = true -> (y <? z) = true -> (x <? z) = true.
Proof. rewrite !FloatAxioms.ltb_spec, FloatAxioms.leb_spec. apply SFleb_ltb_trans. Qed.

Lemma ltb_leb_trans x y z : (x <? y) = true -> (y <=? z) = true -> (x <? z) = true.
Proof. rewrite !FloatAxioms.ltb_spec, FloatAxioms.leb_spec. apply SFltb_leb_trans. Qed.

Lemma eqb_leb x y : (x =? y) = true -> (x <=? y) = true /\ (y <=? x) = true.
Proof.
  rewrite FloatAxioms.eqb_spec, !FloatAxioms.leb_spec. unfold SFeqb, SFleb.
  destruct (SFcompare (Prim2SF x) (Prim2SF y)) as [[]|] eqn:E; try discriminate.
  rewrite (SFcompare_antisym _ _ _ E). auto.
Qed.

Lemma is_finite_spec x : is_finite x = SFfinite (Prim2SF x).
Proof.
  unfold is_finite, is_infinity.
  rewrite is_nan_spec, FloatAxioms.eqb_spec, FloatAxioms.abs_spec.
  change (Prim2SF infinity) with (S754_infinity false).
  destruct (Prim2SF x) as [s|s| |s m e]; reflexivity.
Qed.

Lemma nonneg_not_nan x : nonneg x -> is_nan x = false.
Proof.
  unfold nonneg. rewrite is_nan_spec. destruct (Prim2SF x); simpl; congruence.
Qed.

Lemma abs_nonneg x : is_nan x = false -> nonneg (abs x).
Proof.
  unfold nonneg. rewrite is_nan_spec, FloatAxioms.abs_spec.
  destruct (Prim2SF x); simpl; congruence.
Qed.

Lemma abs_finite x : finite x -> finite (abs x).
Proof.
  unfold finite. rewrite FloatAxioms.abs_spec.
  destruct (Prim2SF x); simpl; congruence.
Qed.

Lemma finite_not_nan x : finite x -> is_nan x = false.
Proof.
  unfold finite. rewrite is_nan_spec. destruct (Prim2SF x); simpl; congruence.
Qed.

Lemma mul_nonneg x y :
  nonneg x -> nonneg y -> finite x -> finite y -> nonneg (x * y).
Proof.
  unfold nonneg, finite. rewrite FloatAxioms.mul_spec. apply SFmul_nonneg.
Qed.

Lemma add_nonneg x y : nonneg x -> nonneg y -> nonneg (x + y).
Proof.
  unfold nonneg. rewrite FloatAxioms.add_spec. apply SFadd_nonneg.
Qed.

(** A component [min(y, 100)] of the score is non-negative and finite as
    soon as [y] is non-negative (an overflowed [y] is cut to 100). *)
Lemma py_min_100 y :
  nonneg y -> nonneg (F64.py_min y 100) /\ finite (F64.py_min y 100).
Proof.
  unfold nonneg, finite, F64.py_min. intros Hy.
  rewrite FloatAxioms.ltb_spec.
  destruct (SFltb (Prim2SF 100) (Prim2SF y)) eqn:Hlt.
  - split; reflexivity.
  - split; [assumption|].
    destruct (Prim2SF y) as [[]|[]| |[] m e]; try discriminate; reflexivity.
Qed.

Lemma py_min_fmin a b :
  is_nan a = false -> is_nan b = false -> F64.py_min a b = fmin a b.
Proof.
  intros Ha Hb. unfold F64.py_min, fmin.
  rewrite (ltb_negb_leb b a Hb Ha). destruct (a <=? b); reflexivity.
Qed.

Lemma np_maximum_fmax x lo :
  is_nan x = false -> is_nan lo = false -> F64.np_maximum x lo = fmax x lo.
Proof.
  intros Hx Hlo. unfold F64.np_maximum, fmax. rewrite Hx.
  rewrite (ltb_negb_leb lo x Hlo Hx). destruct (x <=? lo); reflexivity.
Qed.

Lemma np_minimum_fmin_100 m :
  is_nan m = false -> F64.np_minimum m 100 = fmin m 100.
Proof.
  intros Hm. unfold F64.np_minimum, fmin. rewrite Hm.
  destruct (m <? 100) eqn:Hlt.
  - rewrite (ltb_leb _ _ Hlt). reflexivity.
  - destruct (m <=? 100) eqn:Hle; [|reflexivity].
    apply Prim2SF_inj.
    rewrite FloatAxioms.ltb_spec in Hlt. rewrite FloatAxioms.leb_spec in Hle.
    unfold SFltb, SFleb in *.
    destruct (SFcompare (Prim2SF m) (Prim2SF 100)) as [[]|] eqn:Ec;
      try discriminate.
    symmetry. revert Ec.
    change (Prim2SF 100) with (S754_finite false 7036874417766400 (-46)).
    apply SFcompare_Eq_finite.
Qed.
Lemma weighted_component_nonneg w y :
  nonneg w -> finite w -> nonneg y -> nonneg (w * F64.py_min y 100).
Proof.
  intros Hw Hfw Hy. destruct (py_min_100 y Hy) as [Hn Hf].
  apply mul_nonneg; assumption.
Qed.

Lemma scaled_abs_nonneg x k :
  is_finite x = true -> nonneg k -> finite k -> nonneg (abs x * k).
Proof.
  rewrite is_finite_spec. intros Hx Hk Hfk.
  apply mul_nonneg; try assumption.
  - apply abs_nonneg, finite_not_nan, Hx.
  - apply abs_finite, Hx.
Qed.

Lemma np_clip_0_100 x :
  is_nan x = false ->
  F64.np_clip x 0 100 = clamp x 0 100 /\
  (0 <=? F64.np_clip x 0 100) = true /\
  (F64.np_clip x 0 100 <=? 100) = true.
Proof.
  intros Hx. unfold F64.np_clip, clamp.
  rewrite (np_maximum_fmax x 0 Hx eq_refl).
  assert (Hm : (0 <=? fmax x 0) = true).
  { unfold fmax. destruct (x <=? 0) eqn:E; [reflexivity|].
    rewrite (leb_negb_ltb x 0 Hx eq_refl) in E.
    apply ltb_leb. destruct (0 <? x); [reflexivity | discriminate]. }
  assert (Hmn : is_nan (fmax x 0) = false).
  { apply leb_not_nan in Hm. tauto. }
  rewrite (np_minimum_fmin_100 _ Hmn). split; [reflexivity|].
  unfold fmin. destruct (fmax x 0 <=? 100) eqn:E; auto.
Qed.

Lemma bounded_is_finite s :
  (0 <=? s) = true -> (s <=? 100) = true -> is_finite s = true.
Proof.
  rewrite is_finite_spec, !FloatAxioms.leb_spec.
  change (Prim2SF 0) with (S754_zero false).
  change (Prim2SF 100) with (S754_finite false 7036874417766400 (-46)).
  destruct (Prim2SF s) as [[]|[]| |[] m e]; simpl; try discriminate; reflexivity.
Qed.

End FloatFacts.

(* ================================================================== *)
(** * The event detector *)
(* ================================================================== *)

Section DetectorFacts.
#[local] Open Scope float_scope.
Variable config : SystemConfig.
Variable now_isoformat : string.
Variable format_f : nat -> float -> string.

(** Behind the guard the divisor is not a zero: the division does not
    raise. *)
Lemma truediv_guarded (x old_value : float) :
  (abs old_value <? 1e-10) = false ->
  F64.truediv x old_value = Ok (x / old_value).
Proof.
  intros Hg. unfold F64.truediv.
  destruct (is_zero old_value) eqn:Hz; [|reflexivity].
  apply is_zero_abs_small in Hz. congruence.
Qed.

Lemma _significant_change_total old_value new_value threshold :
  _significant_change old_value new_value threshold
  = Ok (significant old_value new_value threshold).
Proof.
  unfold _significant_change, significant.
  destruct (abs old_value <? 1e-10) eqn:Hg; [reflexivity|].
  rewrite truediv_guarded by assumption. reflexivity.
Qed.

Lemma _classify_severity_total old_value new_value threshold :
  _classify_severity old_value new_value threshold
  = Ok (severity_of old_value new_value threshold).
Proof.
  unfold _classify_severity, severity_of.
  destruct (abs old_value <? 1e-10) eqn:Hg; [reflexivity|].
  rewrite truediv_guarded by assumption. simpl.
  destruct (_ <=? _); [reflexivity|]. destruct (_ <=? _); reflexivity.
Qed.

Lemma _calc_change_pct_total old_value new_value :
  _calc_change_pct old_value new_value = Ok (change_pct_of old_value new_value).
Proof.
  unfold _calc_change_pct, change_pct_of.
  destruct (abs old_value <? 1e-10) eqn:Hg; [reflexivity|].
  rewrite truediv_guarded by assumption. reflexivity.
Qed.

Lemma check_change_total events ts ty name digits old_value new_value threshold :
  check_change format_f events ts ty name digits old_value new_value threshold
  = Ok (events ++ change_events format_f ts ty name digits old_value new_value threshold).
Proof.
  unfold check_change, change_events.
  rewrite _significant_change_total. simpl.
  destruct (significant old_value new_value threshold).
  - rewrite _classify_severity_total, _calc_change_pct_total. reflexivity.
  - rewrite app_nil_r. reflexivity.
Qed.

(** A warm call, in full: what it returns and the detector it leaves. *)
Lemma detect_events_warm self previous current_metrics :
  previous_metrics self = Some previous ->
  detect_events config now_isoformat format_f self current_metrics
  = Ok {| returned := warm_events config now_isoformat format_f previous current_metrics;
          detector :=
            {| previous_metrics := Some current_metrics;
               event_history :=
                 trimmed (max_history_size self)
                   (event_history self ++
                    warm_events config now_isoformat format_f previous current_metrics);
               max_history_size := max_history_size self |};
          logged := [] |}.
Proof.
  intros Hprev. unfold detect_events. rewrite Hprev.
  rewrite !check_change_total. simpl.
  rewrite !check_change_total. simpl.
  rewrite !check_change_total. simpl.
  rewrite !check_change_total. simpl.
  unfold warm_events, greek_events, regime_events, trimmed. simpl.
  case_bool_decide; simpl; rewrite <- ?app_assoc, ?app_nil_r; reflexivity.
Qed.

(** The test of [_significant_change] is the rule of the specification, NaN
    included: a quotient that passes the threshold is not NaN, so neither is
    the old value, and the two readings of the cut-off agree. *)
Lemma significant_iff_rule old_value new_value threshold :
  significant old_value new_value threshold = true
  <-> change_rule old_value new_value threshold.
Proof.
  unfold significant, change_rule, relative_change.
  destruct (abs old_value <? 1e-10) eqn:Hg.
  - apply ltb_asym in Hg. rewrite Hg. intuition congruence.
  - split.
    + intros Hc. left. split; [|assumption].
      destruct (leb_not_nan _ _ Hc) as [_ Hq].
      assert (Ho : is_nan old_value = false).
      { destruct (is_nan old_value) eqn:E; [|reflexivity].
        rewrite abs_is_nan, div_is_nan in Hq by auto. discriminate. }
      rewrite leb_negb_ltb, Hg; [reflexivity|reflexivity|].
      rewrite abs_is_nan. assumption.
    + intros [[_ Hc]|[Hc _]]; [assumption|discriminate].
Qed.

(** Every comparison with NaN is false: a NaN on either side is never a
    significant change. *)
Lemma significant_nan old_value new_value threshold :
  is_nan old_value = true \/ is_nan new_value = true ->
  significant old_value new_value threshold = false.
Proof.
  intros Hn. unfold significant.
  destruct (abs old_value <? 1e-10) eqn:Hg.
  - destruct Hn as [Hn|Hn].
    + apply ltb_not_nan in Hg. rewrite abs_is_nan in Hg. destruct Hg; congruence.
    + apply ltb_nan_false. right. rewrite abs_is_nan. assumption.
  - apply leb_nan_false. right. rewrite abs_is_nan.
    apply div_is_nan. destruct Hn as [Hn|Hn]; [right; assumption|].
    left. apply sub_is_nan. left. assumption.
Qed.

Lemma elem_of_change_events e ts ty name digits o n t :
  e ∈ change_events format_f ts ty name digits o n t ->
  significant o n t = true /\ event_type e = ty /\
  old_value e = o /\ new_value e = n /\ severity e = severity_of o n t.
Proof.
  unfold change_events. destruct (significant o n t).
  - intros He. apply list_elem_of_singleton in He. subst e. simpl. auto.
  - intros He. apply not_elem_of_nil in He. contradiction.
Qed.

Lemma emitted_change_events ty' ts ty name digits o n t :
  emitted ty' (change_events format_f ts ty name digits o n t)
  <-> ty' = ty /\ significant o n t = true.
Proof.
  split.
  - intros (e & He & Hty). apply elem_of_change_events in He.
    destruct He as (Hs & Hty' & _). split; congruence.
  - intros [-> Hs]. unfold change_events. rewrite Hs.
    eexists. split; [apply list_elem_of_singleton; reflexivity | reflexivity].
Qed.

Lemma emitted_app ty l1 l2 :
  emitted ty (l1 ++ l2) <-> emitted ty l1 \/ emitted ty l2.
Proof.
  unfold emitted. split.
  - intros (e & He & Hty). apply elem_of_app in He.
    destruct He; [left | right]; eauto.
  - intros [(e & He & Hty) | (e & He & Hty)]; exists e;
      (split; [apply elem_of_app; auto | assumption]).
Qed.

Lemma elem_of_regime_events e ts r1 r2 :
  e ∈ regime_events ts r1 r2 -> event_type e = "REGIME_CHANGE".
Proof.
  unfold regime_events. case_bool_decide.
  - intros He. apply list_elem_of_singleton in He. subst e. reflexivity.
  - intros He. apply not_elem_of_nil in He. contradiction.
Qed.

Lemma greek_event_type_inj g g' :
  greek_event_type g = greek_event_type g' -> g = g'.
Proof. destruct g, g'; simpl; intros [=]; reflexivity. Qed.

Lemma greek_event_type_not_regime g : greek_event_type g <> "REGIME_CHANGE".
Proof. destruct g; discriminate. Qed.

(** Where an event of a Greek's type can come from: only the block of
    that Greek. *)
Lemma elem_of_warm_events e g previous current_metrics :
  e ∈ warm_events config now_isoformat format_f previous current_metrics ->
  event_type e = greek_event_type g ->
  e ∈ greek_events config now_isoformat format_f g previous current_metrics.
Proof.
  unfold warm_events. rewrite !elem_of_app.
  intros He Hty.
  assert (Hblock : forall g',
    e ∈ greek_events config now_isoformat format_f g' previous current_metrics ->
    g' = g).
  { intros g' Hg'. apply elem_of_change_events in Hg'.
    destruct Hg' as (_ & Hty' & _). apply greek_event_type_inj. congruence. }
  destruct He as [He|[He|[He|[He|He]]]];
    try (rewrite <- (Hblock _ He); exact He).
  apply elem_of_regime_events in He.
  exfalso. apply (greek_event_type_not_regime g). congruence.
Qed.

Lemma greek_events_in_warm_events e g previous current_metrics :
  e ∈ greek_events config now_isoformat format_f g previous current_metrics ->
  e ∈ warm_events config now_isoformat format_f previous current_metrics.
Proof.
  unfold warm_events. rewrite !elem_of_app. destruct g; auto.
Qed.

Lemma emitted_warm_events g previous current_metrics :
  emitted (greek_event_type g)
    (warm_events config now_isoformat format_f previous current_metrics)
  <-> significant (greek_value g previous) (greek_value g current_metrics)
        (greek_threshold g (risk_thresholds config)) = true.
Proof.
  split.
  - intros (e & He & Hty).
    apply (elem_of_warm_events e g) in He; [|assumption].
    apply elem_of_change_events in He. tauto.
  - intros Hs.
    assert (He : emitted (greek_event_type g)
              (greek_events config now_isoformat format_f g previous current_metrics)).
    { apply emitted_change_events. auto. }
    destruct He as (e & He & Hty). exists e. split; [|assumption].
    eapply greek_events_in_warm_events; eassumption.
Qed.

(** The first call of a detector without a previous snapshot. *)
Lemma detect_events_cold self current_metrics :
  previous_metrics self = None ->
  detect_events config now_isoformat format_f self current_metrics
  = Ok {| returned := [];
          detector := {| previous_metrics := Some current_metrics;
                         event_history := event_history self;
                         max_history_size := max_history_size self |};
          logged := [] |}.
Proof. intros Hcold. unfold detect_events. rewrite Hcold. reflexivity. Qed.

(** C6.  Cold start: the first call of [detect_events] on a freshly
    constructed detector returns the empty list whatever the snapshot [s]
    is, and leaves a detector whose previous snapshot is [s]: the detector is
    warm, its next call compares the new snapshot with [s]. *)
Theorem detect_events_cold_start (s : Metrics) :
  exists out,
    detect_events config now_isoformat format_f RiskEventDetector_new s = Ok out /\
    returned out = [] /\
    previous_metrics (detector out) = Some s /\
    event_history (detector out) = [] /\
    forall s' : Metrics,
      exists out',
        detect_events config now_isoformat format_f (detector out) s' = Ok out' /\
        returned out' = warm_events config now_isoformat format_f s s'.
Proof.
  eexists. split; [apply detect_events_cold; reflexivity|].
  simpl. repeat split.
  intros s'. eexists. split; [apply detect_events_warm; reflexivity|].
  reflexivity.
Qed.

(** C1.  In the warm state, for each Greek among delta, gamma, theta and
    vega, [detect_events] returns an event of that Greek's type exactly when
    the change rule holds: with |old| >= 1e-10 the relative change
    |(new - old) / old| is at least the Greek's threshold; with
    |old| < 1e-10 the magnitude |new| strictly exceeds it.  The first
    comparison is inclusive: a relative change equal to the threshold
    emits. *)
Theorem detect_events_emits_iff_threshold self previous current_metrics :
  previous_metrics self = Some previous ->
  exists out,
    detect_events config now_isoformat format_f self current_metrics = Ok out /\
    forall g : Greek,
      (emitted (greek_event_type g) (returned out)
       <-> change_rule (greek_value g previous) (greek_value g current_metrics)
             (greek_threshold g (risk_thresholds config))) /\
      ((1e-10 <=? abs (greek_value g previous)) = true ->
       is_nan (greek_threshold g (risk_thresholds config)) = false ->
       relative_change (greek_value g previous) (greek_value g current_metrics)
       = greek_threshold g (risk_thresholds config) ->
       emitted (greek_event_type g) (returned out)).
Proof.
  intros Hprev. eexists. split; [apply detect_events_warm; eassumption|].
  intros g. simpl. rewrite emitted_warm_events.
  split; [apply significant_iff_rule|].
  intros Hold Hth Heq. apply significant_iff_rule. left.
  split; [assumption|]. rewrite Heq. apply leb_refl, Hth.
Qed.

(** C10.  Every Greek-change event whose old value is below the cut-off
    (|old| < 1e-10) has severity MEDIUM, although its new value exceeded the
    threshold: HIGH and LOW are not reached in this case. *)
Theorem zero_old_value_severity_is_medium self previous current_metrics :
  previous_metrics self = Some previous ->
  exists out,
    detect_events config now_isoformat format_f self current_metrics = Ok out /\
    forall (e : RiskEvent) (g : Greek),
      e ∈ returned out ->
      event_type e = greek_event_type g ->
      (abs (old_value e) <? 1e-10) = true ->
      severity e = "MEDIUM" /\
      (greek_threshold g (risk_thresholds config) <? abs (new_value e)) = true.
Proof.
  intros Hprev. eexists. split; [apply detect_events_warm; eassumption|].
  simpl. intros e g He Hty Hsmall.
  apply (elem_of_warm_events e g) in He; [|assumption].
  apply elem_of_change_events in He.
  destruct He as (Hs & _ & Ho & Hn & Hsev).
  rewrite Hsev, Hn. rewrite Ho in Hsmall.
  unfold severity_of, significant in *. rewrite Hsmall in *. auto.
Qed.

(** C9, as the code has it.  A warm call never raises.  A Greek that is NaN
    in the old or in the new snapshot yields no event of its type; the other
    Greeks are compared as always, and the new snapshot becomes the previous
    one.  Nothing is logged: the anomaly leaves no record. *)
Theorem detect_events_nan_field_silent self previous current_metrics :
  previous_metrics self = Some previous ->
  exists out,
    detect_events config now_isoformat format_f self current_metrics = Ok out /\
    previous_metrics (detector out) = Some current_metrics /\
    logged out = [] /\
    forall g : Greek,
      (is_nan (greek_value g previous) = true \/
       is_nan (greek_value g current_metrics) = true ->
       ~ emitted (greek_event_type g) (returned out)) /\
      (emitted (greek_event_type g) (returned out)
       <-> change_rule (greek_value g previous) (greek_value g current_metrics)
             (greek_threshold g (risk_thresholds config))).
Proof.
  intros Hprev. eexists. split; [apply detect_events_warm; eassumption|].
  simpl. split; [reflexivity|]. split; [reflexivity|].
  intros g. rewrite emitted_warm_events. split.
  - intros Hn. rewrite significant_nan by assumption. discriminate.
  - apply significant_iff_rule.
Qed.
End DetectorFacts.

(** The edge case the specification illustrates (old = 0.40, new = 0.42,
    threshold 0.05): in binary64 the relative change is 0.049999999999999906,
    just below the threshold, and the default detector emits nothing. *)
Example threshold_edge_in_binary64 :
  relative_change 0.40 0.42 = 0.049999999999999906%float /\
  (relative_change 0.40 0.42 <? 0.05)%float = true /\
  detect_events default_config "" plain_format
    (warm_detector (metrics_of 0.40 0 0 0 "STABLE"))
    (metrics_of 0.42 0 0 0 "STABLE")
  = Ok {| returned := [];
          detector := warm_detector (metrics_of 0.42 0 0 0 "STABLE");
          logged := [] |}.
Proof. repeat split; vm_compute; reflexivity. Qed.

(** C9, as the specification has it, fails: a NaN delta arrives, no event
    is returned for it, and no log record is written. *)
Lemma nan_delta_is_not_logged :
  is_nan (greek_value Delta (metrics_of nan 0.01 0 0 "STABLE")) = true /\
  exists out,
    detect_events default_config "" plain_format
      (warm_detector (metrics_of 0.5 0.01 0 0 "STABLE"))
      (metrics_of nan 0.01 0 0 "STABLE") = Ok out /\
    returned out = [] /\
    event_history (detector out) = [] /\
    logged out = [].
Proof.
  split; [reflexivity|]. eexists. split; [vm_compute; reflexivity|].
  repeat split.
Qed.

(* ================================================================== *)
(** * Configuration, score, regime and shock scenarios *)
(* ================================================================== *)

Section RiskFacts.
#[local] Open Scope float_scope.

Example RiskThresholds_default_value :
  RiskThresholds_default = Ok default_thresholds /\
  SystemConfig_new None = Ok default_config.
Proof. split; reflexivity. Qed.

(** C8, as the specification has it, fails: cut-offs in the wrong order
    (stable_max = 70, sensitive_max = 30) are accepted, at construction of
    the thresholds and of the configuration that holds them. *)
Lemma RiskThresholds_accepts_unordered_cutoffs :
  exists t c,
    RiskThresholds_new 0.05 0.10 0.05 0.10 0.0 100.0 70.0 30.0 None = Ok t /\
    SystemConfig_new (Some t) = Ok c /\
    stable_max (risk_thresholds c) = 70 /\
    sensitive_max (risk_thresholds c) = 30 /\
    (stable_max (risk_thresholds c) <? sensitive_max (risk_thresholds c)) = false.
Proof. eexists. eexists. repeat split. Qed.

(** C8, as the code has it.  Construction never fails, whatever the
    cut-offs: they are stored as given, without validation.  Nothing fails
    later either: under any cut-offs the classifier returns one of the three
    regimes for every score. *)
Theorem RiskThresholds_new_never_fails
    (dt gt tt vt smin smax a b : float) (shocks : option (list float)) :
  exists t,
    RiskThresholds_new dt gt tt vt smin smax a b shocks = Ok t /\
    stable_max t = a /\ sensitive_max t = b /\
    SystemConfig_new (Some t) = Ok {| risk_thresholds := t |} /\
    forall score : float,
      determine_risk_regime {| risk_thresholds := t |} score = "STABLE" \/
      determine_risk_regime {| risk_thresholds := t |} score = "SENSITIVE" \/
      determine_risk_regime {| risk_thresholds := t |} score = "FRAGILE".
Proof.
  eexists. split; [reflexivity|]. simpl. repeat split.
  intros score. unfold determine_risk_regime. simpl.
  destruct (score <=? a); auto. destruct (score <=? b); auto.
Qed.

(** C3.  For a score in [0, 100] and cut-offs with
    0 <= stable_max < sensitive_max <= 100, the classifier returns one of
    STABLE, SENSITIVE, FRAGILE: STABLE exactly when score <= stable_max,
    SENSITIVE exactly when stable_max < score <= sensitive_max, FRAGILE
    exactly when sensitive_max < score.  A score equal to stable_max is
    STABLE, a score equal to sensitive_max is SENSITIVE. *)
Theorem determine_risk_regime_partition (config : SystemConfig) (score : float) :
  (0 <=? score) = true -> (score <=? 100) = true ->
  (0 <=? stable_max (risk_thresholds config)) = true ->
  (stable_max (risk_thresholds config) <? sensitive_max (risk_thresholds config)) = true ->
  (sensitive_max (risk_thresholds config) <=? 100) = true ->
  (determine_risk_regime config score = "STABLE" \/
   determine_risk_regime config score = "SENSITIVE" \/
   determine_risk_regime config score = "FRAGILE") /\
  (determine_risk_regime config score = "STABLE"
   <-> (score <=? stable_max (risk_thresholds config)) = true) /\
  (determine_risk_regime config score = "SENSITIVE"
   <-> (stable_max (risk_thresholds config) <? score) = true /\
       (score <=? sensitive_max (risk_thresholds config)) = true) /\
  (determine_risk_regime config score = "FRAGILE"
   <-> (sensitive_max (risk_thresholds config) <? score) = true) /\
  ((score =? stable_max (risk_thresholds config)) = true ->
   determine_risk_regime config score = "STABLE") /\
  ((score =? sensitive_max (risk_thresholds config)) = true ->
   determine_risk_regime config score = "SENSITIVE").
Proof.
  intros Hs0 Hs100 Ha Hab Hb. unfold determine_risk_regime.
  set (a := stable_max (risk_thresholds config)) in *.
  set (b := sensitive_max (risk_thresholds config)) in *.
  assert (Hns : is_nan score = false) by (apply leb_not_nan in Hs0; tauto).
  assert (Hna : is_nan a = false) by (apply leb_not_nan in Ha; tauto).
  assert (Hnb : is_nan b = false) by (apply leb_not_nan in Hb; tauto).
  rewrite (ltb_negb_leb a score Hna Hns), (ltb_negb_leb b score Hnb Hns).
  assert (Hsa_sb : (score <=? a) = true -> (score <=? b) = true).
  { intros H. apply ltb_leb. eapply leb_ltb_trans; eassumption. }
  assert (Heq_b : (score =? b) = true -> (score <=? a) = false).
  { intros H. apply eqb_leb in H. destruct H as [_ H].
    apply ltb_asym. eapply ltb_leb_trans; eassumption. }
  destruct (score <=? a) eqn:Ea.
  - rewrite (Hsa_sb eq_refl). simpl.
    repeat split; auto; try discriminate; try tauto.
    + intros [H _]. discriminate.
    + intros H. specialize (Heq_b H). discriminate.
  - destruct (score <=? b) eqn:Eb; simpl.
    + repeat split; auto; try discriminate.
      intros H. apply eqb_leb in H. destruct H as [H _]. congruence.
    + repeat split; auto; try discriminate.
      * intros [_ H]. discriminate.
      * intros H. apply eqb_leb in H. destruct H as [H _]. congruence.
      * intros H. apply eqb_leb in H. destruct H as [H _]. congruence.
Qed.

(** C2.  On finite delta, gamma, theta and vega (an absent key counts as
    0.0), [compute_risk_score] returns
    clamp(0.25 min(|delta| 100, 100) + 0.35 min(|gamma| 1000, 100)
          + 0.20 min(|theta| 10, 100) + 0.20 min(|vega| 5, 100), 0, 100),
    and the result is finite and lies in [0, 100].  The function is total:
    there is no error case. *)
Theorem compute_risk_score_formula (greeks : gmap string float) :
  is_finite (get greeks "delta" 0) = true ->
  is_finite (get greeks "gamma" 0) = true ->
  is_finite (get greeks "theta" 0) = true ->
  is_finite (get greeks "vega" 0) = true ->
  compute_risk_score greeks
  = risk_score_formula (get greeks "delta" 0) (get greeks "gamma" 0)
      (get greeks "theta" 0) (get greeks "vega" 0) /\
  is_finite (compute_risk_score greeks) = true /\
  (0 <=? compute_risk_score greeks) = true /\
  (compute_risk_score greeks <=? 100) = true.
Proof.
  intros Hd Hg Ht Hv. unfold compute_risk_score, risk_score_formula.
  set (d := get greeks "delta" 0) in *. set (g := get greeks "gamma" 0) in *.
  set (t := get greeks "theta" 0) in *. set (v := get greeks "vega" 0) in *.
  assert (Hyd : nonneg (abs d * 100)) by (apply scaled_abs_nonneg; auto; reflexivity).
  assert (Hyg : nonneg (abs g * 1000)) by (apply scaled_abs_nonneg; auto; reflexivity).
  assert (Hyt : nonneg (abs t * 10)) by (apply scaled_abs_nonneg; auto; reflexivity).
  assert (Hyv : nonneg (abs v * 5)) by (apply scaled_abs_nonneg; auto; reflexivity).
  assert (Hsum : nonneg (0.25 * F64.py_min (abs d * 100) 100 +
                         0.35 * F64.py_min (abs g * 1000) 100 +
                         0.20 * F64.py_min (abs t * 10) 100 +
                         0.20 * F64.py_min (abs v * 5) 100)).
  { repeat apply add_nonneg; apply weighted_component_nonneg;
      auto; reflexivity. }
  destruct (np_clip_0_100 _ (nonneg_not_nan _ Hsum)) as (Heq & H0 & H100).
  split; [|split; [apply bounded_is_finite; assumption | split; assumption]].
  rewrite Heq.
  rewrite !py_min_fmin; auto using nonneg_not_nan.
Qed.

(** A NaN Greek is outside the claim: the score is then NaN. *)
Example compute_risk_score_nan :
  is_nan (compute_risk_score (<["delta" := nan]> ∅)) = true.
Proof. vm_compute. reflexivity. Qed.
End RiskFacts.

Section ShockFacts.
#[local] Open Scope float_scope.
Variable lib : FloatLib.
Variable import_time datetime_now : datetime.

(** Each scenario is the default contract priced at the shocked price, the
    clock and the volatility passed on unchanged. *)
Lemma shock_greeks_reprices (base_price shock_percent : float) current_time volatility :
  shock_greeks (H := Float64 lib) import_time datetime_now
    base_price shock_percent current_time volatility
  = calculate_option_greeks (H := Float64 lib) import_time datetime_now
      (base_price * (1 + shock_percent)) current_time volatility.
Proof. reflexivity. Qed.

(** The literals of the kernel, read at binary64, are the doubles Python
    reads them as; the time to expiration of the default contract is 90/365
    at import and stays at the floor once fewer than a day remains. *)
Example kernel_literals :
  lit64 0.0001 = 0.0001 /\ lit64 0.045 = 0.045 /\ lit64 365.0 = 365 /\
  lit64 2100.0 = 2100 /\ lit64 100.0 = 100 /\ lit64 1.0 = 1 /\
  lit64 2 = 2 /\ lit64 0 = 0.
Proof. repeat split; vm_compute; reflexivity. Qed.

Example time_to_expiration_years_values :
  time_to_expiration_years (H := Float64 lib) datetime_now
    (GOLD_CALL_OPTION (H := Float64 lib) 0%Z) (Some 0%Z)
  = 90 / 365 /\
  time_to_expiration_years (H := Float64 lib) datetime_now
    (GOLD_CALL_OPTION (H := Float64 lib) 0%Z) (Some (timedelta_of_days 90 + 1)%Z)
  = 0.0001.
Proof. split; vm_compute; reflexivity. Qed.

(** The labels of the default shock set are the ones the specification
    names; fractions that are not whole percents lose their fraction and may
    lose their sign. *)
Example shock_labels :
  List.map shock_label (shock_scenarios default_thresholds)
  = [Ok "shock_+1pct"; Ok "shock_+5pct"; Ok "shock_-1pct"; Ok "shock_-5pct"] /\
  shock_label 0.025 = Ok "shock_+2pct" /\
  shock_label (-0.005) = Ok "shock_0pct" /\
  shock_label nan = Raise ValueError.
Proof. repeat split; vm_compute; reflexivity. Qed.

(** C7 at the failing input.  With the single configured fraction 0.29 the
    scenario is priced at base_price * (1 + 0.29), but it is stored under
    the label shock_+28pct: the binary64 product 0.29 * 100 is
    28.999999999999996, and [int] truncates it. *)
Theorem compute_shock_scenarios_mislabels_29pct
    (base_price : float) (current_time : option datetime) (volatility : float) :
  exists t,
    RiskThresholds_new 0.05 0.10 0.05 0.10 0.0 100.0 30.0 65.0 (Some [0.29]) = Ok t /\
    (0.29 * 100 <? 29) = true /\
    shock_label 0.29 = Ok "shock_+28pct" /\
    compute_shock_scenarios lib import_time datetime_now {| risk_thresholds := t |}
      base_price current_time volatility
    = (shocked_greeks ← shock_greeks (H := Float64 lib) import_time datetime_now
                          base_price 0.29 current_time volatility;
       Ok {[ "shock_+28pct" := shocked_greeks ]}).
Proof.
  eexists. split; [reflexivity|]. split; [reflexivity|].
  assert (Hl : shock_label 0.29 = Ok "shock_+28pct") by (vm_compute; reflexivity).
  split; [exact Hl|].
  unfold compute_shock_scenarios. simpl.
  destruct (shock_greeks _ _ _ _ _ _) as [g|e]; simpl; [|reflexivity].
  rewrite Hl. simpl. rewrite insert_empty. reflexivity.
Qed.
End ShockFacts.

(* ================================================================== *)
(** * The Black-76 kernel in exact arithmetic *)
(* ================================================================== *)

(** The kernel is read here at the instance [Exact Phi]: the formulas of
    greeks.py over the real numbers.  Of the standard normal distribution
    function [Phi] only its symmetry and its range are used; rounding errors
    of binary64 are outside these statements. *)
Section RealKernel.
#[local] Open Scope R_scope.
Variable Phi : R -> R.
Hypothesis Phi_sym : forall x, Phi (- x) = 1 - Phi x.
Hypothesis Phi_range : forall x, 0 <= Phi x <= 1.
















End RealKernel.


(* ================================================================== *)
(** * More on the event detector *)
(* ================================================================== *)

Section HistoryFacts.
Variable config : SystemConfig.
Variable now_isoformat : string.
Variable format_f : nat -> float -> string.

Lemma slice_from_last {A} (l : list A) (n : Z) :
  (0 < n)%Z -> slice_from l (- n) = drop (length l - Z.to_nat n) l.
Proof.
  intros Hn. unfold slice_from.
  destruct (Z.ltb_spec (- n) 0); [|lia].
  f_equal. lia.
Qed.

Lemma trimmed_last limit (h : list RiskEvent) :
  (0 < limit)%Z -> trimmed limit h = drop (length h - Z.to_nat limit) h.
Proof.
  intros Hl. unfold trimmed.
  destruct (Z.ltb_spec limit (Z.of_nat (length h))).
  - apply slice_from_last, Hl.
  - replace (length h - Z.to_nat limit)%nat with 0%nat by lia. reflexivity.
Qed.

Lemma trimmed_length limit (h : list RiskEvent) :
  (0 < limit)%Z -> (Z.of_nat (length (trimmed limit h)) <= limit)%Z.
Proof.
  intros Hl. rewrite trimmed_last, length_drop by assumption. lia.
Qed.

(** X1.  The history after a warm call of [detect_events] (the limit being
    positive): it is the old history followed by the returned events, cut
    to its last [max_history_size] entries; its length is within the limit,
    the limit is unchanged, and the returned events, when the limit has
    room for them, are the end of the history. *)
Theorem detect_events_history self previous current_metrics :
  previous_metrics self = Some previous ->
  (0 < max_history_size self)%Z ->
  exists out,
    detect_events config now_isoformat format_f self current_metrics = Ok out /\
    event_history (detector out)
    = drop (length (event_history self ++ returned out)
            - Z.to_nat (max_history_size self))
           (event_history self ++ returned out) /\
    (Z.of_nat (length (event_history (detector out))) <= max_history_size self)%Z /\
    max_history_size (detector out) = max_history_size self /\
    ((Z.of_nat (length (returned out)) <= max_history_size self)%Z ->
     returned out `suffix_of` event_history (detector out)).
Proof.
  intros Hprev Hl. eexists. split; [apply detect_events_warm; eassumption|].
  simpl. set (evs := warm_events _ _ _ _ _).
  split; [apply trimmed_last, Hl|].
  split; [apply trimmed_length, Hl|]. split; [reflexivity|].
  intros Hfit. rewrite trimmed_last by assumption.
  exists (drop (length (event_history self ++ evs) - Z.to_nat (max_history_size self))
            (event_history self)).
  rewrite drop_app_le; [reflexivity|].
  rewrite length_app. lia.
Qed.
End HistoryFacts.

Section StreamFacts.
Variable config : SystemConfig.
Variable format_f : nat -> float -> string.

(** Any call, cold or warm: it returns, stores the snapshot, and keeps the
    history within its bound. *)
Lemma detect_events_total now_isoformat self current_metrics :
  exists out,
    detect_events config now_isoformat format_f self current_metrics = Ok out /\
    previous_metrics (detector out) = Some current_metrics /\
    max_history_size (detector out) = max_history_size self /\
    ((0 < max_history_size self)%Z ->
     (Z.of_nat (length (event_history self)) <= max_history_size self)%Z ->
     (Z.of_nat (length (event_history (detector out))) <= max_history_size self)%Z).
Proof.
  destruct (previous_metrics self) as [previous|] eqn:Hprev.
  - eexists. split; [apply detect_events_warm; eassumption|].
    simpl. repeat split. intros Hl _. apply trimmed_length, Hl.
  - eexists. split; [apply detect_events_cold; assumption|].
    simpl. repeat split. auto.
Qed.

(** X2.  A detector whose history is within its (positive) limit, driven
    through any stream of snapshots: no call raises, there is one list of
    events per snapshot, the history stays within the limit, and the
    detector ends up holding the last snapshot of the stream. *)
Theorem feed_never_halts self (ticks : list (string * Metrics)) :
  (0 < max_history_size self)%Z ->
  (Z.of_nat (length (event_history self)) <= max_history_size self)%Z ->
  exists events final,
    feed config format_f self ticks = Ok (events, final) /\
    length events = length ticks /\
    (Z.of_nat (length (event_history final)) <= max_history_size self)%Z /\
    max_history_size final = max_history_size self /\
    previous_metrics final
    = match last ticks with
      | Some tick => Some tick.2
      | None => previous_metrics self
      end.
Proof.
  revert self. induction ticks as [|[now s] rest IH]; intros self Hl Hh.
  - exists [], self. repeat split; auto.
  - destruct (detect_events_total now self s) as (out & Hout & Hprev & Hmax & Hbound).
    destruct (IH (detector out)) as (evs & final & Hfeed & Hlen & Hhist & Hmax' & Hlast).
    { rewrite Hmax. exact Hl. }
    { rewrite Hmax. auto. }
    exists (returned out :: evs), final. simpl. rewrite Hout. simpl.
    rewrite Hfeed. simpl. split; [reflexivity|].
    split; [congruence|]. split; [rewrite <- Hmax; exact Hhist|].
    split; [congruence|].
    rewrite Hlast, Hprev. destruct rest as [|t rest']; [reflexivity|].
    rewrite last_cons_cons.
    destruct (last (t :: rest')) eqn:E; [reflexivity|].
    apply last_None in E. discriminate.
Qed.
End StreamFacts.

Section OrderFacts.
Variable config : SystemConfig.
Variable now_isoformat : string.
Variable format_f : nat -> float -> string.

Lemma change_events_types ts ty name digits o n t :
  event_type <$> change_events format_f ts ty name digits o n t = [] \/
  event_type <$> change_events format_f ts ty name digits o n t = [ty].
Proof. unfold change_events. destruct (significant o n t); auto. Qed.

Lemma regime_events_types ts r1 r2 :
  event_type <$> regime_events ts r1 r2 = [] \/
  event_type <$> regime_events ts r1 r2 = ["REGIME_CHANGE"].
Proof. unfold regime_events. case_bool_decide; auto. Qed.

Lemma warm_events_order previous current_metrics :
  (event_type <$> warm_events config now_isoformat format_f previous current_metrics)
    `sublist_of` canonical_order.
Proof.
  unfold warm_events, greek_events, canonical_order. rewrite !fmap_app.
  repeat match goal with
    | |- context [event_type <$> change_events ?f ?ts ?ty ?nm ?d ?o ?n ?t] =>
        destruct (change_events_types ts ty nm d o n t) as [->| ->]
    | |- context [event_type <$> regime_events ?ts ?a ?b] =>
        destruct (regime_events_types ts a b) as [->| ->]
    end;
    simpl; repeat constructor.
Qed.

Lemma warm_events_length previous current_metrics :
  length (warm_events config now_isoformat format_f previous current_metrics) <= 5.
Proof.
  pose proof (sublist_length _ _ (warm_events_order previous current_metrics)) as H.
  rewrite length_fmap in H. exact H.
Qed.

(** X3.  Whatever the detector and the snapshot, one call of
    [detect_events] returns at most five events, at most one of each type,
    in the order DELTA, GAMMA, THETA, VEGA, REGIME. *)
Theorem detect_events_order self current_metrics :
  exists out,
    detect_events config now_isoformat format_f self current_metrics = Ok out /\
    (event_type <$> returned out) `sublist_of` canonical_order /\
    length (returned out) <= 5.
Proof.
  destruct (previous_metrics self) as [previous|] eqn:Hprev.
  - eexists. split; [apply detect_events_warm; eassumption|].
    simpl. split; [apply warm_events_order | apply warm_events_length].
  - eexists. split; [apply detect_events_cold; assumption|].
    simpl. split; [apply sublist_nil_l | lia].
Qed.
End OrderFacts.

Section RegimeEventFacts.
#[local] Open Scope float_scope.
Variable config : SystemConfig.
Variable now_isoformat : string.
Variable format_f : nat -> float -> string.

Lemma regime_level_cases regime :
  regime_level regime = 0%Z /\ regime = "STABLE" \/
  regime_level regime = 2%Z /\ regime = "FRAGILE" \/
  regime_level regime = 1%Z /\ regime <> "STABLE" /\ regime <> "FRAGILE".
Proof.
  unfold regime_level, regime_order.
  destruct (decide (regime = "STABLE")) as [->|Hs]; [left; split; reflexivity|].
  destruct (decide (regime = "FRAGILE")) as [->|Hf];
    [right; left; split; reflexivity|].
  right; right. split; [|auto].
  rewrite lookup_insert_ne by congruence.
  destruct (decide (regime = "SENSITIVE")) as [->|Hm]; [reflexivity|].
  rewrite !lookup_insert_ne by congruence. reflexivity.
Qed.

Lemma _regime_change_severity_levels old_regime new_regime :
  (_regime_change_severity old_regime new_regime = "HIGH"
   <-> Z.abs (regime_level new_regime - regime_level old_regime) = 2%Z) /\
  (_regime_change_severity old_regime new_regime = "MEDIUM"
   <-> Z.abs (regime_level new_regime - regime_level old_regime) = 1%Z) /\
  (_regime_change_severity old_regime new_regime = "LOW"
   <-> regime_level new_regime = regime_level old_regime).
Proof.
  unfold _regime_change_severity. fold (regime_level old_regime) (regime_level new_regime).
  destruct (regime_level_cases old_regime) as [[-> _]|[[-> _]|[-> _]]],
           (regime_level_cases new_regime) as [[-> _]|[[-> _]|[-> _]]];
    simpl; repeat split; intros; try discriminate; try reflexivity; try lia.
Qed.

Lemma elem_of_warm_events_regime e previous current_metrics :
  e ∈ warm_events config now_isoformat format_f previous current_metrics ->
  event_type e = "REGIME_CHANGE" ->
  e ∈ regime_events (default now_isoformat (m_timestamp current_metrics))
        (default "UNKNOWN" (m_risk_regime previous))
        (default "UNKNOWN" (m_risk_regime current_metrics)).
Proof.
  unfold warm_events. rewrite !elem_of_app. intros He Hty.
  assert (Hno : forall g,
    ~ e ∈ greek_events config now_isoformat format_f g previous current_metrics).
  { intros g Hg. apply elem_of_change_events in Hg. destruct Hg as (_ & Hg & _).
    apply (greek_event_type_not_regime g). congruence. }
  destruct He as [He|[He|[He|[He|He]]]]; try (exfalso; eapply Hno; eassumption).
  exact He.
Qed.

(** The regime check inside the list of a warm call. *)
Lemma warm_events_regime_change previous current_metrics :
  (emitted "REGIME_CHANGE"
     (warm_events config now_isoformat format_f previous current_metrics)
   <-> default "UNKNOWN" (m_risk_regime previous)
       <> default "UNKNOWN" (m_risk_regime current_metrics)) /\
  forall e : RiskEvent,
    e ∈ warm_events config now_isoformat format_f previous current_metrics ->
    event_type e = "REGIME_CHANGE" ->
    last (warm_events config now_isoformat format_f previous current_metrics) = Some e /\
    old_value e = 0 /\ new_value e = 0 /\ change_pct e = 0 /\
    severity e
    = _regime_change_severity (default "UNKNOWN" (m_risk_regime previous))
        (default "UNKNOWN" (m_risk_regime current_metrics)).
Proof.
  set (old := default "UNKNOWN" (m_risk_regime previous)).
  set (new := default "UNKNOWN" (m_risk_regime current_metrics)).
  split.
  - split.
    + intros (e & He & Hty). apply elem_of_warm_events_regime in He; [|assumption].
      fold old new in He. unfold regime_events in He.
      case_bool_decide; [assumption|]. apply not_elem_of_nil in He. contradiction.
    + intros Hne. unfold warm_events. fold old new. unfold regime_events.
      rewrite bool_decide_true by assumption.
      eexists. split.
      { rewrite !elem_of_app. do 4 right. apply list_elem_of_singleton. reflexivity. }
      reflexivity.
  - intros e He Hty.
    pose proof (elem_of_warm_events_regime e _ _ He Hty) as Hr. fold old new in Hr.
    unfold warm_events. fold old new.
    unfold regime_events in *. case_bool_decide;
      [|apply not_elem_of_nil in Hr; contradiction].
    apply list_elem_of_singleton in Hr. subst e. simpl.
    split; [rewrite !app_assoc; apply last_snoc|].
    repeat (split; [reflexivity|]). reflexivity.
Qed.

(** X4.  In the warm state a REGIME_CHANGE event is returned exactly when
    the two regime names differ (an absent key counting as UNKNOWN); it is
    the last event of the call, it carries zeros for its old value, new
    value and percentage, and its severity is HIGH, MEDIUM or LOW as the
    levels of the two names (STABLE 0, FRAGILE 2, every other name 1) are
    two apart, one apart or equal. *)
Theorem regime_change_event self previous current_metrics :
  previous_metrics self = Some previous ->
  exists out,
    detect_events config now_isoformat format_f self current_metrics = Ok out /\
    (emitted "REGIME_CHANGE" (returned out)
     <-> default "UNKNOWN" (m_risk_regime previous)
         <> default "UNKNOWN" (m_risk_regime current_metrics)) /\
    forall e : RiskEvent,
      e ∈ returned out -> event_type e = "REGIME_CHANGE" ->
      last (returned out) = Some e /\
      old_value e = 0 /\ new_value e = 0 /\ change_pct e = 0 /\
      (severity e = "HIGH"
       <-> Z.abs (regime_level (default "UNKNOWN" (m_risk_regime current_metrics))
                  - regime_level (default "UNKNOWN" (m_risk_regime previous))) = 2%Z) /\
      (severity e = "MEDIUM"
       <-> Z.abs (regime_level (default "UNKNOWN" (m_risk_regime current_metrics))
                  - regime_level (default "UNKNOWN" (m_risk_regime previous))) = 1%Z) /\
      (severity e = "LOW"
       <-> regime_level (default "UNKNOWN" (m_risk_regime current_metrics))
           = regime_level (default "UNKNOWN" (m_risk_regime previous))).
Proof.
  intros Hprev. eexists. split; [apply detect_events_warm; eassumption|]. simpl.
  destruct (warm_events_regime_change previous current_metrics) as [Hiff Hev].
  split; [exact Hiff|].
  intros e He Hty. destruct (Hev e He Hty) as (Hlast & Ho & Hn & Hp & ->).
  repeat (split; [assumption|]).
  apply _regime_change_severity_levels.
Qed.

(** X5.  A regime name outside the three regimes, an absent key included,
    counts as the middle level: in the warm state a change from such a name
    to SENSITIVE is reported, as the last event of the call, with severity
    LOW. *)
Theorem unknown_regime_change_is_low self previous current_metrics :
  previous_metrics self = Some previous ->
  regime_order !! default "UNKNOWN" (m_risk_regime previous) = None ->
  m_risk_regime current_metrics = Some "SENSITIVE" ->
  exists out e,
    detect_events config now_isoformat format_f self current_metrics = Ok out /\
    last (returned out) = Some e /\
    event_type e = "REGIME_CHANGE" /\ severity e = "LOW".
Proof.
  intros Hprev Hold Hnew.
  destruct (warm_events_regime_change previous current_metrics) as [Hiff Hev].
  assert (Hne : default "UNKNOWN" (m_risk_regime previous)
                <> default "UNKNOWN" (m_risk_regime current_metrics)).
  { rewrite Hnew. simpl. intros Heq. rewrite Heq in Hold. discriminate. }
  apply Hiff in Hne. destruct Hne as (e & He & Hty).
  destruct (Hev e He Hty) as (Hlast & _ & _ & _ & Hsev).
  eexists. exists e. split; [apply detect_events_warm; eassumption|]. simpl.
  repeat (split; [assumption|]).
  rewrite Hsev. apply _regime_change_severity_levels.
  rewrite Hnew. unfold regime_level. rewrite Hold. reflexivity.
Qed.

(** X6.  Between two snapshots whose regimes were both computed by
    [determine_risk_regime], a REGIME_CHANGE event is never of severity LOW:
    it is HIGH exactly when the change is between STABLE and FRAGILE, and
    MEDIUM otherwise. *)
Theorem pipeline_regime_change_never_low
    (config' : SystemConfig) (old_score new_score : float)
    self previous current_metrics :
  previous_metrics self = Some previous ->
  m_risk_regime previous = Some (determine_risk_regime config' old_score) ->
  m_risk_regime current_metrics = Some (determine_risk_regime config' new_score) ->
  exists out,
    detect_events config now_isoformat format_f self current_metrics = Ok out /\
    forall e : RiskEvent,
      e ∈ returned out -> event_type e = "REGIME_CHANGE" ->
      severity e <> "LOW" /\
      (severity e = "HIGH"
       <-> (determine_risk_regime config' old_score = "STABLE" /\
            determine_risk_regime config' new_score = "FRAGILE") \/
           (determine_risk_regime config' old_score = "FRAGILE" /\
            determine_risk_regime config' new_score = "STABLE")) /\
      (severity e = "MEDIUM"
       <-> determine_risk_regime config' old_score = "SENSITIVE" \/
           determine_risk_regime config' new_score = "SENSITIVE").
Proof.
  intros Hprev Hold Hnew.
  eexists. split; [apply detect_events_warm; eassumption|]. simpl.
  destruct (warm_events_regime_change previous current_metrics) as [Hiff Hev].
  intros e He Hty.
  assert (Hne : default "UNKNOWN" (m_risk_regime previous)
                <> default "UNKNOWN" (m_risk_regime current_metrics)).
  { apply Hiff. exists e. auto. }
  destruct (Hev e He Hty) as (_ & _ & _ & _ & ->).
  rewrite Hold, Hnew in *. simpl in *.
  assert (Hthree : forall s,
    determine_risk_regime config' s = "STABLE" \/
    determine_risk_regime config' s = "SENSITIVE" \/
    determine_risk_regime config' s = "FRAGILE").
  { intros s. unfold determine_risk_regime.
    destruct (_ <=? _)%float; [auto|]. destruct (_ <=? _)%float; auto. }
  destruct (Hthree old_score) as [Ho|[Ho|Ho]], (Hthree new_score) as [Hn|[Hn|Hn]];
    rewrite Ho, Hn in *; try congruence;
    (split; [vm_compute; discriminate|]);
    (split; split; intros H; vm_compute in H |- *;
     try discriminate; try reflexivity; auto;
     repeat match goal with
       | H : _ \/ _ |- _ => destruct H
       | H : _ /\ _ |- _ => destruct H
       end; try discriminate).
Qed.
End RegimeEventFacts.

Section MoreFloatFacts.
#[local] Open Scope float_scope.

Lemma SFleb_trans x y z :
  SFleb x y = true -> SFleb y z = true -> SFleb x z = true.
Proof.
  unfold SFleb.
  destruct x as [?|?| |? ? ?], y as [?|?| |? ? ?], z as [?|?| |? ? ?];
  simpl; try discriminate; try reflexivity;
  repeat match goal with b : bool |- _ => destruct b end;
  simpl; try discriminate; try reflexivity;
  change (Pos.compare_cont Eq) with Pos.compare;
  repeat match goal with
    | |- context [(?a ?= ?b)%Z] => destruct (Z.compare_spec a b); try lia; subst
    | |- context [(?a ?= ?b)%positive] => destruct (Pos.compare_spec a b); try lia; subst
    end;
  simpl; try discriminate; try reflexivity; try lia.
Qed.

Lemma leb_trans x y z : (x <=? y) = true -> (y <=? z) = true -> (x <=? z) = true.
Proof. rewrite !FloatAxioms.leb_spec. apply SFleb_trans. Qed.

Lemma ltb_irrefl_rev x y : (x <? y) = true -> (y <? x) = false.
Proof.
  intros H. apply ltb_asym in H.
  destruct (y <? x) eqn:E; [|reflexivity]. apply ltb_leb in E. congruence.
Qed.

(** The relative change of a value to itself is 0, or NaN when the value is
    not finite or is a zero. *)
Lemma self_quotient x :
  is_nan (abs ((x - x) / x)) = true \/ abs ((x - x) / x) = 0.
Proof.
  rewrite is_nan_spec.
  assert (H : Prim2SF (abs ((x - x) / x)) = S754_nan \/
              Prim2SF (abs ((x - x) / x)) = S754_zero false).
  { rewrite FloatAxioms.abs_spec, FloatAxioms.div_spec, FloatAxioms.sub_spec.
    destruct (Prim2SF x) as [s|s| |s m e]; simpl.
    - left. destruct s; reflexivity.
    - left. destruct s; reflexivity.
    - left. reflexivity.
    - right. rewrite Z.sub_diag. simpl. reflexivity. }
  destruct H as [H|H]; [left; rewrite H; reflexivity|right].
  apply Prim2SF_inj. rewrite H. reflexivity.
Qed.

Lemma above_cutoff_not_below x threshold :
  (1e-10 <=? threshold) = true -> (x <? 1e-10) = true -> (threshold <? x) = false.
Proof.
  intros Ht Hx. apply ltb_irrefl_rev. eapply ltb_leb_trans; eassumption.
Qed.

Lemma above_cutoff_positive threshold :
  (1e-10 <=? threshold) = true -> (threshold <=? 0) = false.
Proof.
  intros Ht. apply ltb_asym. eapply ltb_leb_trans; [|eassumption]. reflexivity.
Qed.

Lemma significant_self x threshold :
  (1e-10 <=? threshold) = true -> significant x x threshold = false.
Proof.
  intros Ht. unfold significant.
  destruct (abs x <? 1e-10) eqn:Hg.
  - apply above_cutoff_not_below; assumption.
  - destruct (self_quotient x) as [Hn| ->].
    + apply leb_nan_false. auto.
    + apply above_cutoff_positive, Ht.
Qed.
End MoreFloatFacts.

Section EventFieldFacts.
#[local] Open Scope float_scope.
Variable config : SystemConfig.
Variable now_isoformat : string.
Variable format_f : nat -> float -> string.

(** X7.  With every change threshold at least the cut-off 1e-10, a warm
    detector that is handed the snapshot it already holds returns no event,
    whatever the snapshot contains (NaN, infinities and absent keys
    included). *)
Theorem detect_events_steady_state self (s : Metrics) :
  previous_metrics self = Some s ->
  (forall g : Greek, (1e-10 <=? greek_threshold g (risk_thresholds config)) = true) ->
  exists out,
    detect_events config now_isoformat format_f self s = Ok out /\
    returned out = [] /\
    previous_metrics (detector out) = Some s.
Proof.
  intros Hprev Hth. eexists. split; [apply detect_events_warm; eassumption|].
  simpl. split; [|reflexivity].
  unfold warm_events, greek_events, change_events, regime_events.
  rewrite !significant_self by apply Hth.
  rewrite bool_decide_false by auto. reflexivity.
Qed.

Lemma elem_of_change_events_record e ts ty name digits o n t :
  e ∈ change_events format_f ts ty name digits o n t ->
  timestamp e = ts /\ change_pct e = change_pct_of o n.
Proof.
  unfold change_events. destruct (significant o n t).
  - intros He. apply list_elem_of_singleton in He. subst e. simpl. auto.
  - intros He. apply not_elem_of_nil in He. contradiction.
Qed.

(** X8.  The record of a Greek-change event of a warm call: its timestamp
    is the snapshot's (or the clock's, if the key is absent), its old and new
    values are the two readings of that Greek, its severity is one of HIGH,
    MEDIUM and LOW; and when the old value is not below the cut-off, its
    percentage is 100 (new - old) / old, and its severity is HIGH from
    three times the threshold on, MEDIUM from one and a half times on, LOW
    below that. *)
Theorem greek_event_fields self previous current_metrics :
  previous_metrics self = Some previous ->
  exists out,
    detect_events config now_isoformat format_f self current_metrics = Ok out /\
    forall (e : RiskEvent) (g : Greek),
      e ∈ returned out -> event_type e = greek_event_type g ->
      timestamp e = default now_isoformat (m_timestamp current_metrics) /\
      old_value e = greek_value g previous /\
      new_value e = greek_value g current_metrics /\
      (severity e = "HIGH" \/ severity e = "MEDIUM" \/ severity e = "LOW") /\
      ((abs (old_value e) <? 1e-10) = false ->
       change_pct e = (new_value e - old_value e) / old_value e * 100 /\
       (severity e = "HIGH"
        <-> (greek_threshold g (risk_thresholds config) * 3
             <=? relative_change (old_value e) (new_value e)) = true) /\
       (severity e = "MEDIUM"
        <-> (greek_threshold g (risk_thresholds config) * 3
             <=? relative_change (old_value e) (new_value e)) = false /\
            (greek_threshold g (risk_thresholds config) * 1.5
             <=? relative_change (old_value e) (new_value e)) = true) /\
       (severity e = "LOW"
        <-> (greek_threshold g (risk_thresholds config) * 1.5
             <=? relative_change (old_value e) (new_value e)) = false /\
            (greek_threshold g (risk_thresholds config) * 3
             <=? relative_change (old_value e) (new_value e)) = false)).
Proof.
  intros Hprev. eexists. split; [apply detect_events_warm; eassumption|].
  simpl. intros e g He Hty.
  apply (elem_of_warm_events _ _ _ e g) in He; [|assumption].
  pose proof (elem_of_change_events_record _ _ _ _ _ _ _ _ He) as (Hts & Hpct).
  apply elem_of_change_events in He. destruct He as (_ & _ & Ho & Hn & Hsev).
  rewrite Hts, Ho, Hn, Hsev, Hpct.
  split; [reflexivity|]. split; [reflexivity|]. split; [reflexivity|].
  unfold severity_of, change_pct_of, relative_change.
  set (o := greek_value g previous). set (n := greek_value g current_metrics).
  set (t := greek_threshold g (risk_thresholds config)).
  split.
  { destruct (abs o <? 1e-10); auto.
    destruct (t * 3 <=? _); auto. destruct (t * 1.5 <=? _); auto. }
  intros Hg. rewrite Hg. split; [reflexivity|].
  destruct (t * 3 <=? abs ((n - o) / o)), (t * 1.5 <=? abs ((n - o) / o));
    repeat split; intros; try discriminate; try reflexivity;
    try (destruct H; discriminate); auto.
Qed.

(** X9.  A Greek-change event whose old value is below the cut-off reports
    a percentage of exactly 100, whatever the new value, when the threshold
    of that Greek is at least the cut-off. *)
Theorem zero_old_value_change_pct self previous current_metrics :
  previous_metrics self = Some previous ->
  exists out,
    detect_events config now_isoformat format_f self current_metrics = Ok out /\
    forall (e : RiskEvent) (g : Greek),
      e ∈ returned out -> event_type e = greek_event_type g ->
      (abs (old_value e) <? 1e-10) = true ->
      (1e-10 <=? greek_threshold g (risk_thresholds config)) = true ->
      change_pct e = 100.
Proof.
  intros Hprev. eexists. split; [apply detect_events_warm; eassumption|].
  simpl. intros e g He Hty Hsmall Hth.
  apply (elem_of_warm_events _ _ _ e g) in He; [|assumption].
  pose proof (elem_of_change_events_record _ _ _ _ _ _ _ _ He) as (_ & Hpct).
  apply elem_of_change_events in He. destruct He as (Hs & _ & Ho & _ & _).
  rewrite Hpct. rewrite Ho in Hsmall.
  unfold change_pct_of, significant in *. rewrite Hsmall in *.
  assert (Hnew : (abs (greek_value g current_metrics) <? 1e-10) = false).
  { apply ltb_irrefl_rev. eapply leb_ltb_trans; eassumption. }
  rewrite Hnew. reflexivity.
Qed.
End EventFieldFacts.

Section HistoryAccess.
Variable config : SystemConfig.
Variable now_isoformat : string.
Variable format_f : nat -> float -> string.

(** X10.  [get_recent_events] returns the last [count] events for a
    positive [count] (all of them if there are fewer), the whole history
    for [count = 0], and the history without its first [-count] events for
    a negative [count]; in every case an end of the history. *)
Theorem get_recent_events_slice (self : RiskEventDetector) (count : Z) :
  ((0 < count)%Z ->
   get_recent_events self count
   = drop (length (event_history self) - Z.to_nat count) (event_history self) /\
   length (get_recent_events self count)
   = Nat.min (Z.to_nat count) (length (event_history self))) /\
  (count = 0%Z -> get_recent_events self count = event_history self) /\
  ((count < 0)%Z ->
   get_recent_events self count = drop (Z.to_nat (- count)) (event_history self)) /\
  get_recent_events self count `suffix_of` event_history self.
Proof.
  unfold get_recent_events. repeat split.
  - apply slice_from_last. assumption.
  - rewrite slice_from_last, length_drop by assumption. lia.
  - intros ->. reflexivity.
  - intros Hc. unfold slice_from.
    destruct (Z.ltb_spec (- count) 0); [lia|]. reflexivity.
  - unfold slice_from. destruct (_ <? _)%Z; apply suffix_drop.
Qed.

(** X11.  After a warm call that returned at least one event, and no more
    than the limit holds, asking for as many recent events as were returned
    gives back exactly the returned events; after a call that returned
    none, asking for that many (zero) gives the whole history. *)
Theorem get_recent_events_returns_latest self previous current_metrics :
  previous_metrics self = Some previous ->
  (5 <= max_history_size self)%Z ->
  exists out,
    detect_events config now_isoformat format_f self current_metrics = Ok out /\
    (returned out <> [] ->
     get_recent_events (detector out) (Z.of_nat (length (returned out)))
     = returned out) /\
    (returned out = [] ->
     get_recent_events (detector out) (Z.of_nat (length (returned out)))
     = event_history (detector out)).
Proof.
  intros Hprev Hmax.
  eexists. split; [apply detect_events_warm; eassumption|]. simpl.
  pose proof (warm_events_length config now_isoformat format_f previous current_metrics)
    as Hlen.
  set (evs := warm_events _ _ _ _ _) in *.
  split.
  - intros Hne. unfold get_recent_events.
    assert (0 < length evs) by (destruct evs; [congruence|simpl; lia]).
    rewrite trimmed_last by lia.
    rewrite slice_from_last by lia. cbn [event_history].
    rewrite length_drop, drop_drop, Nat2Z.id.
    assert (Hk : forall n, n = length (event_history self) ->
                 drop n (event_history self ++ evs) = evs)
      by (intros ? ->; apply drop_app_length).
    apply Hk. rewrite length_app. lia.
  - intros ->. reflexivity.
Qed.

(** X12.  [clear_history] empties the history and leaves the detector warm:
    the next call compares against the same previous snapshot and returns
    the same events as it would have without the clearing, and the history
    then holds exactly those (the limit being at least five). *)
Theorem clear_history_keeps_warm self previous current_metrics :
  previous_metrics self = Some previous ->
  (5 <= max_history_size self)%Z ->
  exists out out',
    detect_events config now_isoformat format_f self current_metrics = Ok out /\
    detect_events config now_isoformat format_f (clear_history self) current_metrics
    = Ok out' /\
    event_history (clear_history self) = [] /\
    returned out' = returned out /\
    event_history (detector out') = returned out.
Proof.
  intros Hprev Hmax.
  pose proof (warm_events_length config now_isoformat format_f previous current_metrics)
    as Hlen.
  eexists. eexists. split; [apply detect_events_warm; eassumption|].
  split; [apply detect_events_warm; simpl; eassumption|]. simpl.
  split; [reflexivity|]. split; [reflexivity|].
  unfold trimmed. destruct (Z.ltb_spec (max_history_size self)
    (Z.of_nat (length (warm_events config now_isoformat format_f previous current_metrics))));
    [lia|reflexivity].
Qed.
End HistoryAccess.

(* ================================================================== *)
(** * More on the score, the regime and the shock scenarios *)
(* ================================================================== *)

Section SiblingTest.
#[local] Open Scope float_scope.

(** X13.  [detect_significant_change] never raises; at an old value equal
    to zero it reports whether the new value is non-zero, whatever the
    threshold; and wherever the old value is not below the detector's
    cut-off it agrees with the detector's [_significant_change]. *)
Theorem detect_significant_change_total (old_value new_value threshold : float) :
  (exists b, detect_significant_change old_value new_value threshold = Ok b) /\
  ((old_value =? 0) = true ->
   detect_significant_change old_value new_value threshold
   = Ok (negb (new_value =? 0))) /\
  ((abs old_value <? 1e-10) = false ->
   detect_significant_change old_value new_value threshold
   = _significant_change old_value new_value threshold).
Proof.
  unfold detect_significant_change, _significant_change.
  change (old_value =? 0) with (is_zero old_value).
  split; [|split].
  - destruct (is_zero old_value) eqn:Hz; [eexists; reflexivity|].
    unfold F64.truediv. rewrite Hz. eexists. reflexivity.
  - intros ->. reflexivity.
  - intros Hg. rewrite Hg.
    destruct (is_zero old_value) eqn:Hz; [|reflexivity].
    apply is_zero_abs_small in Hz. congruence.
Qed.

(** Below the cut-off the two tests part: at old = 0 the test of risk.py
    reports every non-zero new value, the detector only one above the
    threshold. *)
Example sibling_tests_differ :
  detect_significant_change 0 0.01 0.05 = Ok true /\
  _significant_change 0 0.01 0.05 = Ok false.
Proof. split; reflexivity. Qed.
End SiblingTest.

Section ScoreRegimeFacts.
#[local] Open Scope float_scope.

Lemma mul_is_nan x y : is_nan x = true \/ is_nan y = true -> is_nan (x * y) = true.
Proof.
  rewrite !is_nan_spec, FloatAxioms.mul_spec. unfold SF64mul.
  destruct (Prim2SF x), (Prim2SF y); simpl; intros [?|?]; congruence.
Qed.

Lemma add_is_nan x y : is_nan x = true \/ is_nan y = true -> is_nan (x + y) = true.
Proof.
  rewrite !is_nan_spec, FloatAxioms.add_spec. unfold SF64add.
  destruct (Prim2SF x), (Prim2SF y); simpl; intros [?|?]; congruence.
Qed.

Lemma component_is_nan w x k :
  is_nan x = true -> is_nan (w * F64.py_min (abs x * k) 100) = true.
Proof.
  intros Hx. apply mul_is_nan. right. unfold F64.py_min.
  assert (Hy : is_nan (abs x * k) = true).
  { apply mul_is_nan. left. rewrite abs_is_nan. exact Hx. }
  rewrite ltb_nan_false by auto. exact Hy.
Qed.

(** X14.  If delta, gamma, theta or vega is NaN, the score of
    [compute_risk_score] is NaN, and [determine_risk_regime] names that score
    FRAGILE under every configuration. *)
Theorem nan_greek_is_fragile (greeks : gmap string float) :
  is_nan (get greeks "delta" 0) = true \/ is_nan (get greeks "gamma" 0) = true \/
  is_nan (get greeks "theta" 0) = true \/ is_nan (get greeks "vega" 0) = true ->
  is_nan (compute_risk_score greeks) = true /\
  forall config : SystemConfig,
    determine_risk_regime config (compute_risk_score greeks) = "FRAGILE".
Proof.
  intros H.
  assert (Hs : is_nan (compute_risk_score greeks) = true).
  { unfold compute_risk_score, F64.np_clip, F64.np_minimum, F64.np_maximum.
    match goal with |- context [is_nan ?s] =>
      match s with (_ + _) => assert (Hsum : is_nan s = true) end end.
    { destruct H as [H|[H|[H|H]]].
      - do 3 (apply add_is_nan; left). apply component_is_nan, H.
      - do 2 (apply add_is_nan; left). apply add_is_nan. right.
        apply component_is_nan, H.
      - apply add_is_nan. left. apply add_is_nan. right. apply component_is_nan, H.
      - apply add_is_nan. right. apply component_is_nan, H. }
    rewrite Hsum. rewrite Hsum. exact Hsum. }
  split; [exact Hs|]. intros config. unfold determine_risk_regime.
  rewrite !leb_nan_false by auto. reflexivity.
Qed.

(** X15.  [determine_risk_regime] is monotone: a score that is not below
    another is never given a lower regime (STABLE below SENSITIVE below
    FRAGILE), whatever the two cut-offs are. *)
Theorem determine_risk_regime_monotone (config : SystemConfig) (s1 s2 : float) :
  (s1 <=? s2) = true ->
  (regime_level (determine_risk_regime config s1)
   <= regime_level (determine_risk_regime config s2))%Z.
Proof.
  intros Hle. unfold determine_risk_regime.
  set (a := stable_max (risk_thresholds config)).
  set (b := sensitive_max (risk_thresholds config)).
  destruct (s2 <=? a) eqn:E2a.
  - rewrite (leb_trans _ _ _ Hle E2a). reflexivity.
  - destruct (s2 <=? b) eqn:E2b.
    + rewrite (leb_trans _ _ _ Hle E2b). destruct (s1 <=? a); vm_compute; discriminate.
    + destruct (s1 <=? a); [vm_compute; discriminate|].
      destruct (s1 <=? b); vm_compute; discriminate.
Qed.

(** X16.  With [sensitive_max] not above [stable_max], which the
    configuration accepts, no score is ever named SENSITIVE: every score is
    STABLE, when it is at most [stable_max], or FRAGILE. *)
Theorem unordered_cutoffs_hide_sensitive (config : SystemConfig) (score : float) :
  (sensitive_max (risk_thresholds config) <=? stable_max (risk_thresholds config)) = true ->
  determine_risk_regime config score <> "SENSITIVE" /\
  (determine_risk_regime config score = "STABLE"
   <-> (score <=? stable_max (risk_thresholds config)) = true) /\
  (determine_risk_regime config score = "FRAGILE"
   <-> (score <=? stable_max (risk_thresholds config)) = false).
Proof.
  intros Hba. unfold determine_risk_regime.
  destruct (score <=? stable_max (risk_thresholds config)) eqn:Ea.
  - split; [discriminate|]. split; split; intros; congruence.
  - destruct (score <=? sensitive_max (risk_thresholds config)) eqn:Eb.
    + rewrite (leb_trans _ _ _ Eb Hba) in Ea. discriminate.
    + split; [discriminate|]. split; split; intros; congruence.
Qed.
End ScoreRegimeFacts.

Section ScenarioFacts.
#[local] Open Scope float_scope.
Variable lib : FloatLib.
Variable import_time datetime_now : datetime.
Variable base_price : float.
Variable current_time : option datetime.
Variable volatility : float.

#[local] Abbreviation scenario_step :=
  (scenario_step lib import_time datetime_now base_price current_time volatility).

Lemma compute_shock_scenarios_fold config :
  compute_shock_scenarios lib import_time datetime_now config
    base_price current_time volatility
  = foldl scenario_step (Ok ∅) (shock_scenarios (risk_thresholds config)).
Proof. reflexivity. Qed.

Lemma scenario_fold_raise e shocks : foldl scenario_step (Raise e) shocks = Raise e.
Proof. induction shocks as [|s l IH]; [reflexivity|]. cbn [foldl]. exact IH. Qed.

Lemma scenario_step_ok m s m' :
  scenario_step (Ok m) s = Ok m' ->
  exists g k,
    shock_greeks (H := Float64 lib) import_time datetime_now
      base_price s current_time volatility = Ok g /\
    shock_label s = Ok k /\ m' = <[k := g]> m.
Proof.
  unfold scenario_step. simpl.
  destruct (shock_greeks _ _ _ _ _ _) as [g|e]; simpl; [|discriminate].
  destruct (shock_label s) as [k|e]; simpl; [|discriminate].
  intros [= <-]. eauto.
Qed.

(** What a table built by the loop holds under a label: the Greeks of the
    last fraction with that label, or what was there before the loop. *)
Lemma scenario_fold_lookup shocks : forall m0 m k,
  foldl scenario_step (Ok m0) shocks = Ok m ->
  (forall s, s ∈ shocks -> exists g k',
     shock_greeks (H := Float64 lib) import_time datetime_now
       base_price s current_time volatility = Ok g /\ shock_label s = Ok k') /\
  ((exists before s after g,
      shocks = before ++ s :: after /\ shock_label s = Ok k /\
      (forall s', s' ∈ after -> shock_label s' <> Ok k) /\
      shock_greeks (H := Float64 lib) import_time datetime_now
        base_price s current_time volatility = Ok g /\
      m !! k = Some g)
   \/
   ((forall s, s ∈ shocks -> shock_label s <> Ok k) /\ m !! k = m0 !! k)).
Proof.
  induction shocks as [|s l IH]; intros m0 m k Hfold.
  - simpl in Hfold. injection Hfold as <-. split.
    + intros s Hs. apply not_elem_of_nil in Hs. contradiction.
    + right. split; [|reflexivity]. intros s Hs. apply not_elem_of_nil in Hs. contradiction.
  - cbn [foldl] in Hfold.
    destruct (scenario_step (Ok m0) s) as [m1|e] eqn:Hstep;
      [|rewrite scenario_fold_raise in Hfold; discriminate].
    destruct (scenario_step_ok _ _ _ Hstep) as (g & ks & Hg & Hk & ->).
    destruct (IH _ _ k Hfold) as [Hall Hcase]. split.
    + intros s' Hs'. apply elem_of_cons in Hs'. destruct Hs' as [->|Hs']; eauto.
    + destruct Hcase as [(before & s' & after & g' & -> & Hk' & Hlast & Hg' & Hm)
                        |[Hnone Hm]].
      * left. exists (s :: before), s', after, g'. auto.
      * destruct (decide (ks = k)) as [->|Hne].
        -- left. exists [], s, l, g. rewrite Hm, lookup_insert_eq. auto.
        -- right. split.
           ++ intros s' Hs'. apply elem_of_cons in Hs'.
              destruct Hs' as [->|Hs']; [congruence|auto].
           ++ rewrite Hm. apply lookup_insert_ne. exact Hne.
Qed.

(** X17.  A table returned by [compute_shock_scenarios] holds, under each
    of its labels, the Greeks that [shock_greeks] gives for the last
    configured fraction carrying that label; a label it does not hold is the
    label of no configured fraction. *)
Theorem compute_shock_scenarios_table config scenarios :
  compute_shock_scenarios lib import_time datetime_now config
    base_price current_time volatility = Ok scenarios ->
  forall label : string,
    match scenarios !! label with
    | Some greeks =>
        exists before shock_pct after,
          shock_scenarios (risk_thresholds config) = before ++ shock_pct :: after /\
          shock_label shock_pct = Ok label /\
          (forall s, s ∈ after -> shock_label s <> Ok label) /\
          shock_greeks (H := Float64 lib) import_time datetime_now
            base_price shock_pct current_time volatility = Ok greeks
    | None =>
        forall s, s ∈ shock_scenarios (risk_thresholds config) ->
                  shock_label s <> Ok label
    end.
Proof.
  rewrite compute_shock_scenarios_fold. intros Hfold label.
  destruct (scenario_fold_lookup _ _ _ label Hfold) as [_ Hcase].
  destruct Hcase as [(before & s & after & g & Heq & Hk & Hlast & Hg & ->)|[Hnone ->]].
  - exists before, s, after. auto.
  - rewrite lookup_empty. exact Hnone.
Qed.

Lemma shock_label_not_finite s :
  is_finite s = false -> exists e, shock_label s = Raise e.
Proof.
  rewrite is_finite_spec. intros Hs. unfold shock_label, F64.py_int.
  rewrite FloatAxioms.mul_spec.
  change (Prim2SF 100) with (S754_finite false 7036874417766400 (-46)).
  destruct (Prim2SF s) as [b|b| |b m e]; simpl in *; try discriminate;
    eexists; reflexivity.
Qed.

(** X18.  If a configured shock fraction is NaN or infinite,
    [compute_shock_scenarios] raises (from [int] in the label) and returns
    no table, whatever the other fractions are. *)
Theorem compute_shock_scenarios_not_finite config (shock_pct : float) :
  shock_pct ∈ shock_scenarios (risk_thresholds config) ->
  is_finite shock_pct = false ->
  exists e,
    compute_shock_scenarios lib import_time datetime_now config
      base_price current_time volatility = Raise e.
Proof.
  intros Hin Hs. rewrite compute_shock_scenarios_fold.
  destruct (foldl scenario_step (Ok ∅) (shock_scenarios (risk_thresholds config)))
    as [m|e] eqn:Hfold; [|eauto].
  destruct (scenario_fold_lookup _ _ _ "" Hfold) as [Hall _].
  destruct (Hall _ Hin) as (g & k & _ & Hk).
  destruct (shock_label_not_finite _ Hs) as (e & He). congruence.
Qed.
End ScenarioFacts.

(* ================================================================== *)
(** * More on the kernel *)
(* ================================================================== *)

Section NotNaN.
#[local] Open Scope Z_scope.




End NotNaN.

Section ExpiryFacts.
#[local] Open Scope float_scope.
Variable lib : FloatLib.

Lemma lit64_values :
  lit64 0 = 0 /\ lit64 0.0 = 0 /\ lit64 0.0001 = 0.0001 /\ lit64 365.0 = 365.
Proof. repeat split; vm_compute; reflexivity. Qed.



(** X20.  At a time to expiration [<= 0], [black_76_price] returns the
    intrinsic value, max(F - K, 0) for a call and max(K - F, 0) for any other
    option type, without dividing by the strike, while [compute_greeks]
    returns what it returns at the floor 0.0001. *)
Theorem expired_price_and_greeks (F K T r sigma : float) (option_type : string) :
  (T <=? 0) = true ->
  black_76_price (H := Float64 lib) F K T r sigma option_type
  = Ok (if String.eqb option_type "call"
        then F64.py_max (F - K) 0 else F64.py_max (K - F) 0) /\
  compute_greeks (H := Float64 lib) F K T r sigma option_type
  = compute_greeks (H := Float64 lib) F K 0.0001 r sigma option_type.
Proof.
  intros HT. split.
  - destruct lit64_values as (H0 & H00 & _ & _).
    unfold black_76_price, num_max. cbn [lit le lt sub Float64].
    rewrite H0, H00, HT. destruct (String.eqb option_type "call"); reflexivity.
  - destruct lit64_values as (_ & _ & Hfloor & _).
    unfold compute_greeks. cbn [lit le Float64]. rewrite Hfloor.
    assert (H1 : (T <=? 0.0001) = true) by (eapply leb_trans; [exact HT|reflexivity]).
    rewrite H1. reflexivity.
Qed.

(** X21.  A strike equal to zero (of either sign) makes [compute_greeks]
    raise ZeroDivisionError at every time to expiration, and
    [black_76_price] too unless the time to expiration is [<= 0]. *)
Theorem zero_strike_raises (F K T r sigma : float) (option_type : string) :
  is_zero K = true ->
  compute_greeks (H := Float64 lib) F K T r sigma option_type
  = Raise ZeroDivisionError /\
  ((T <=? 0) = false ->
   black_76_price (H := Float64 lib) F K T r sigma option_type
   = Raise ZeroDivisionError).
Proof.
  intros HK. split.
  - unfold compute_greeks. cbn [truediv Float64].
    unfold F64.truediv. rewrite HK. reflexivity.
  - intros HT. destruct lit64_values as (H0 & _).
    unfold black_76_price. cbn [lit le truediv Float64].
    rewrite H0, HT. unfold F64.truediv. rewrite HK. reflexivity.
Qed.
End ExpiryFacts.

Section KeyFacts.
Context {T : Type} `{PyNum T}.

Lemma compute_greeks_dom (F K tte r sigma : T) (option_type : string) g :
  compute_greeks F K tte r sigma option_type = Ok g ->
  dom g = ({["delta"; "gamma"; "theta"; "vega"; "rho"]} : gset string).
Proof.
  unfold compute_greeks.
  destruct (truediv F K) as [q|e]; simpl; [|discriminate].
  destruct (pow2 sigma) as [v2|e]; simpl; [|discriminate].
  intros [= <-]. rewrite !dom_insert_L, dom_empty_L. set_solver.
Qed.

Lemma calculate_option_greeks_dom
    (import_time datetime_now : datetime) (F sigma : T)
    (current_time : option datetime) g :
  calculate_option_greeks import_time datetime_now F current_time sigma = Ok g ->
  dom g = ({["option_price"; "delta"; "gamma"; "theta"; "vega"; "rho"]} : gset string).
Proof.
  unfold calculate_option_greeks.
  destruct (black_76_price _ _ _ _ _ _) as [p|e]; simpl; [|discriminate].
  destruct (compute_greeks _ _ _ _ _ _) as [g'|e] eqn:Hg'; simpl; [|discriminate].
  intros [= <-].
  rewrite dom_union_L, dom_singleton_L, (compute_greeks_dom _ _ _ _ _ _ _ Hg').
  set_solver.
Qed.

(** X22.  Whenever [compute_greeks] returns, its dictionary has exactly the
    keys delta, gamma, theta, vega and rho; whenever
    [calculate_option_greeks] returns, its dictionary has exactly those and
    option_price. *)
Theorem greeks_dictionary_keys
    (import_time datetime_now : datetime)
    (F K tte r sigma : T) (option_type : string)
    (current_time : option datetime) :
  (forall g, compute_greeks F K tte r sigma option_type = Ok g ->
     dom g = ({["delta"; "gamma"; "theta"; "vega"; "rho"]} : gset string)) /\
  (forall g, calculate_option_greeks import_time datetime_now F current_time sigma = Ok g ->
     dom g = ({["option_price"; "delta"; "gamma"; "theta"; "vega"; "rho"]} : gset string)).
Proof.
  split; intros g.
  - apply compute_greeks_dom.
  - apply calculate_option_greeks_dom.
Qed.
End KeyFacts.

Section RealKernelMore.
#[local] Open Scope R_scope.
Variable Phi : R -> R.
Hypothesis Phi_sym : forall x, Phi (- x) = 1 - Phi x.




End RealKernelMore.


Section RealKernelRelations.
#[local] Open Scope R_scope.
Variable Phi : R -> R.
Hypothesis Phi_sym : forall x, Phi (- x) = 1 - Phi x.




End RealKernelRelations.

(* ================================================================== *)
(** * The full metrics of a tick *)
(* ================================================================== *)

Section FullRiskFacts.
#[local] Open Scope float_scope.
Variable lib : FloatLib.
Variable import_time datetime_now : datetime.
Variable config : SystemConfig.
Variable fromisoformat : string -> option parsed_datetime.

Lemma calculate_option_greeks_getitem price current_time volatility g key :
  calculate_option_greeks (H := Float64 lib) import_time datetime_now
    price current_time volatility = Ok g ->
  key ∈ ["option_price"; "delta"; "gamma"; "theta"; "vega"; "rho"] ->
  exists v, g !! key = Some v /\ getitem g key = Returns v.
Proof.
  intros Hg Hkey. apply calculate_option_greeks_dom in Hg.
  assert (Hin : key ∈ dom g).
  { rewrite Hg. rewrite !elem_of_union, !elem_of_singleton.
    rewrite !elem_of_cons, elem_of_nil in Hkey. tauto. }
  apply elem_of_dom in Hin. destruct Hin as [v Hv].
  exists v. split; [exact Hv|]. unfold getitem. rewrite Hv. reflexivity.
Qed.

(** The ways [compute_full_risk_metrics] can end. *)
Lemma compute_full_risk_metrics_cases
    (underlying_price : float) (timestamp instrument_id : string)
    (volatility : float) :
  (exists t,
     fromisoformat (str_replace "Z" "+00:00" timestamp) = Some (aware t) /\
     compute_full_risk_metrics lib import_time datetime_now config fromisoformat
       underlying_price timestamp instrument_id volatility = Raises TypeError) \/
  (exists current_time,
     clock_used datetime_now fromisoformat timestamp current_time /\
     ((exists e,
         calculate_option_greeks (H := Float64 lib) import_time datetime_now
           underlying_price (Some current_time) volatility = Raise e /\
         compute_full_risk_metrics lib import_time datetime_now config fromisoformat
           underlying_price timestamp instrument_id volatility
         = Raises (Arithmetic e)) \/
      (exists greeks_data e,
         calculate_option_greeks (H := Float64 lib) import_time datetime_now
           underlying_price (Some current_time) volatility = Ok greeks_data /\
         compute_shock_scenarios lib import_time datetime_now config
           underlying_price (Some current_time) volatility = Raise e /\
         compute_full_risk_metrics lib import_time datetime_now config fromisoformat
           underlying_price timestamp instrument_id volatility
         = Raises (Arithmetic e)) \/
      (exists greeks_data shocks option_price delta gamma theta vega rho,
         calculate_option_greeks (H := Float64 lib) import_time datetime_now
           underlying_price (Some current_time) volatility = Ok greeks_data /\
         compute_shock_scenarios lib import_time datetime_now config
           underlying_price (Some current_time) volatility = Ok shocks /\
         greeks_data !! "option_price" = Some option_price /\
         greeks_data !! "delta" = Some delta /\
         greeks_data !! "gamma" = Some gamma /\
         greeks_data !! "theta" = Some theta /\
         greeks_data !! "vega" = Some vega /\
         greeks_data !! "rho" = Some rho /\
         compute_full_risk_metrics lib import_time datetime_now config fromisoformat
           underlying_price timestamp instrument_id volatility
         = Returns {|
             snapshot := {|
               m_timestamp := Some timestamp;
               m_instrument_id := Some instrument_id;
               m_underlying_price := Some underlying_price;
               m_option_price := Some option_price;
               m_delta := Some delta;
               m_gamma := Some gamma;
               m_theta := Some theta;
               m_vega := Some vega;
               m_rho := Some rho;
               m_risk_score := Some (compute_risk_score greeks_data);
               m_risk_regime :=
                 Some (determine_risk_regime config (compute_risk_score greeks_data))
             |};
             shock_up_1pct := get (default ∅ (shocks !! "shock_+1pct")) "delta" 0;
             shock_down_1pct := get (default ∅ (shocks !! "shock_-1pct")) "delta" 0;
             shock_up_5pct := get (default ∅ (shocks !! "shock_+5pct")) "delta" 0;
             shock_down_5pct := get (default ∅ (shocks !! "shock_-5pct")) "delta" 0
           |}))).
Proof.
  unfold compute_full_risk_metrics.
  destruct (fromisoformat _) as [[t|t]|] eqn:Hparse; [|left; eauto|].
  all: right.
  all: match goal with
       | |- context [calculate_option_greeks _ _ _ (Some ?c) _] => exists c
       end.
  all: split; [unfold clock_used; rewrite Hparse; auto|].
  all: destruct (calculate_option_greeks _ _ _ _ _) as [g|e] eqn:Hg;
         simpl; [|left; eauto].
  all: right.
  all: destruct (compute_shock_scenarios _ _ _ _ _ _ _) as [s|e] eqn:Hs;
         simpl; [|left; eauto].
  all: right.
  all: destruct (calculate_option_greeks_getitem _ _ _ _ "option_price" Hg)
         as (v1 & E1 & ->); [repeat constructor|];
       destruct (calculate_option_greeks_getitem _ _ _ _ "delta" Hg)
         as (v2 & E2 & ->); [repeat constructor|];
       destruct (calculate_option_greeks_getitem _ _ _ _ "gamma" Hg)
         as (v3 & E3 & ->); [repeat constructor|];
       destruct (calculate_option_greeks_getitem _ _ _ _ "theta" Hg)
         as (v4 & E4 & ->); [repeat constructor|];
       destruct (calculate_option_greeks_getitem _ _ _ _ "vega" Hg)
         as (v5 & E5 & ->); [repeat constructor|];
       destruct (calculate_option_greeks_getitem _ _ _ _ "rho" Hg)
         as (v6 & E6 & ->); [repeat constructor|];
       simpl; exists g, s, v1, v2, v3, v4, v5, v6;
       repeat (split; [assumption || reflexivity|]); reflexivity.
Qed.

(** X28.  How [compute_full_risk_metrics] ends.  It raises TypeError exactly
    when the timestamp parses to an aware datetime; it never raises
    KeyError; any other exception is one raised by [calculate_option_greeks]
    or [compute_shock_scenarios] at the datetime used (the parsed naive one,
    or the clock when the parse fails).  When it returns, the timestamp,
    instrument and price are the arguments as given, the price and Greeks
    are those of [calculate_option_greeks] at the datetime used, the score
    is [compute_risk_score] of them and the regime is
    [determine_risk_regime] of that score. *)
Theorem compute_full_risk_metrics_outcome
    (underlying_price : float) (timestamp instrument_id : string)
    (volatility : float) :
  match compute_full_risk_metrics lib import_time datetime_now config fromisoformat
          underlying_price timestamp instrument_id volatility with
  | Raises TypeError =>
      exists t, fromisoformat (str_replace "Z" "+00:00" timestamp) = Some (aware t)
  | Raises (KeyError _) => False
  | Raises (Arithmetic e) =>
      exists current_time,
        clock_used datetime_now fromisoformat timestamp current_time /\
        (calculate_option_greeks (H := Float64 lib) import_time datetime_now
           underlying_price (Some current_time) volatility = Raise e \/
         compute_shock_scenarios lib import_time datetime_now config
           underlying_price (Some current_time) volatility = Raise e)
  | Returns m =>
      (forall t, fromisoformat (str_replace "Z" "+00:00" timestamp) <> Some (aware t)) /\
      exists current_time greeks_data,
        clock_used datetime_now fromisoformat timestamp current_time /\
        calculate_option_greeks (H := Float64 lib) import_time datetime_now
          underlying_price (Some current_time) volatility = Ok greeks_data /\
        m_timestamp (snapshot m) = Some timestamp /\
        m_instrument_id (snapshot m) = Some instrument_id /\
        m_underlying_price (snapshot m) = Some underlying_price /\
        is_Some (m_option_price (snapshot m)) /\
        m_option_price (snapshot m) = greeks_data !! "option_price" /\
        is_Some (m_delta (snapshot m)) /\
        m_delta (snapshot m) = greeks_data !! "delta" /\
        is_Some (m_gamma (snapshot m)) /\
        m_gamma (snapshot m) = greeks_data !! "gamma" /\
        is_Some (m_theta (snapshot m)) /\
        m_theta (snapshot m) = greeks_data !! "theta" /\
        is_Some (m_vega (snapshot m)) /\
        m_vega (snapshot m) = greeks_data !! "vega" /\
        is_Some (m_rho (snapshot m)) /\
        m_rho (snapshot m) = greeks_data !! "rho" /\
        m_risk_score (snapshot m) = Some (compute_risk_score greeks_data) /\
        m_risk_regime (snapshot m)
        = Some (determine_risk_regime config (compute_risk_score greeks_data))
  end.
Proof.
  destruct (compute_full_risk_metrics_cases
              underlying_price timestamp instrument_id volatility)
    as [(t & Hparse & ->)
       |(ct & Hclock & [(e & Hg & ->)
                       |[(g & e & Hg & Hs & ->)
                        |(g & s & v1 & v2 & v3 & v4 & v5 & v6 & Hg & Hs
                          & E1 & E2 & E3 & E4 & E5 & E6 & ->)]])].
  - eauto.
  - eauto.
  - eauto.
  - split.
    + intros t Ht. destruct Hclock as [Hc|[Hc _]]; congruence.
    + exists ct, g. simpl. rewrite E1, E2, E3, E4, E5, E6.
      repeat (split; [solve [assumption | reflexivity | eauto]|]). reflexivity.
Qed.

Lemma shock_greeks_delta price shock_pct current_time volatility g :
  shock_greeks (H := Float64 lib) import_time datetime_now
    price shock_pct current_time volatility = Ok g ->
  exists v, g !! "delta" = Some v.
Proof.
  intros Hg. rewrite shock_greeks_reprices in Hg.
  destruct (calculate_option_greeks_getitem _ _ _ _ "delta" Hg) as (v & Hv & _);
    [repeat constructor|].
  eauto.
Qed.

Lemma shock_reading_of_table price current_time volatility scenarios label :
  compute_shock_scenarios lib import_time datetime_now config
    price (Some current_time) volatility = Ok scenarios ->
  shock_reading lib import_time datetime_now config price current_time volatility
    label (get (default ∅ (scenarios !! label)) "delta" 0).
Proof.
  rewrite compute_shock_scenarios_fold. intros Hfold.
  destruct (scenario_fold_lookup _ _ _ _ _ _ _ _ _ label Hfold) as [_ Hcase].
  destruct Hcase as [(before & s & after & g & Heq & Hk & Hlast & Hg & Hm)|[Hnone Hm]].
  - left. exists before, s, after, g. repeat (split; [assumption|]).
    rewrite Hm. simpl. destruct (shock_greeks_delta _ _ _ _ _ Hg) as [v Hv].
    unfold get. rewrite Hv. reflexivity.
  - right. split; [exact Hnone|]. rewrite Hm, lookup_empty. reflexivity.
Qed.

(** A label carried by one configured fraction only reads that fraction. *)
Lemma shock_reading_unique price current_time volatility label value shock_pct :
  shock_pct ∈ shock_scenarios (risk_thresholds config) ->
  shock_label shock_pct = Ok label ->
  (forall s, s ∈ shock_scenarios (risk_thresholds config) ->
             shock_label s = Ok label -> s = shock_pct) ->
  shock_reading lib import_time datetime_now config price current_time volatility
    label value ->
  exists greeks,
    shock_greeks (H := Float64 lib) import_time datetime_now
      price shock_pct (Some current_time) volatility = Ok greeks /\
    greeks !! "delta" = Some value.
Proof.
  intros Hin Hl Huniq [(before & s & after & g & Heq & Hk & _ & Hg & Hv)|[Hnone _]].
  - assert (s = shock_pct) as ->.
    { apply Huniq; [|exact Hk]. rewrite Heq. apply elem_of_app. right. left. }
    eauto.
  - exfalso. exact (Hnone _ Hin Hl).
Qed.

(** X29.  When [compute_full_risk_metrics] returns, each of its four shock
    keys holds the delta that [shock_greeks] gives, at the datetime used,
    for the last configured fraction whose label is the one the key looks
    up (shock_+1pct, shock_-1pct, shock_+5pct, shock_-5pct); if no
    configured fraction has that label, the key holds 0.0. *)
Theorem compute_full_risk_metrics_shock_fields
    (underlying_price : float) (timestamp instrument_id : string)
    (volatility : float) (m : FullRiskMetrics) :
  compute_full_risk_metrics lib import_time datetime_now config fromisoformat
    underlying_price timestamp instrument_id volatility = Returns m ->
  exists current_time,
    clock_used datetime_now fromisoformat timestamp current_time /\
    shock_reading lib import_time datetime_now config
      underlying_price current_time volatility "shock_+1pct" (shock_up_1pct m) /\
    shock_reading lib import_time datetime_now config
      underlying_price current_time volatility "shock_-1pct" (shock_down_1pct m) /\
    shock_reading lib import_time datetime_now config
      underlying_price current_time volatility "shock_+5pct" (shock_up_5pct m) /\
    shock_reading lib import_time datetime_now config
      underlying_price current_time volatility "shock_-5pct" (shock_down_5pct m).
Proof.
  destruct (compute_full_risk_metrics_cases
              underlying_price timestamp instrument_id volatility)
    as [(t & Hparse & ->)
       |(ct & Hclock & [(e & Hg & ->)
                       |[(g & e & Hg & Hs & ->)
                        |(g & s & v1 & v2 & v3 & v4 & v5 & v6 & Hg & Hs
                          & _ & _ & _ & _ & _ & _ & ->)]])];
    try discriminate.
  intros [= <-]. exists ct. split; [exact Hclock|]. simpl.
  repeat split; apply shock_reading_of_table; exact Hs.
Qed.

(** X30.  With the default shock set [0.01, 0.05, -0.01, -0.05], when
    [compute_full_risk_metrics] returns, its four shock keys hold the deltas
    of the default contract at the prices shocked by +1%, -1%, +5% and -5%,
    at the datetime used. *)
Theorem compute_full_risk_metrics_default_shocks
    (underlying_price : float) (timestamp instrument_id : string)
    (volatility : float) (m : FullRiskMetrics) :
  shock_scenarios (risk_thresholds config) = [0.01; 0.05; -0.01; -0.05] ->
  compute_full_risk_metrics lib import_time datetime_now config fromisoformat
    underlying_price timestamp instrument_id volatility = Returns m ->
  exists current_time up1 down1 up5 down5,
    clock_used datetime_now fromisoformat timestamp current_time /\
    calculate_option_greeks (H := Float64 lib) import_time datetime_now
      (underlying_price * (1 + 0.01)) (Some current_time) volatility = Ok up1 /\
    up1 !! "delta" = Some (shock_up_1pct m) /\
    calculate_option_greeks (H := Float64 lib) import_time datetime_now
      (underlying_price * (1 + -0.01)) (Some current_time) volatility = Ok down1 /\
    down1 !! "delta" = Some (shock_down_1pct m) /\
    calculate_option_greeks (H := Float64 lib) import_time datetime_now
      (underlying_price * (1 + 0.05)) (Some current_time) volatility = Ok up5 /\
    up5 !! "delta" = Some (shock_up_5pct m) /\
    calculate_option_greeks (H := Float64 lib) import_time datetime_now
      (underlying_price * (1 + -0.05)) (Some current_time) volatility = Ok down5 /\
    down5 !! "delta" = Some (shock_down_5pct m).
Proof.
  intros Hset Hm.
  destruct (compute_full_risk_metrics_cases
              underlying_price timestamp instrument_id volatility)
    as [(t & _ & E)
       |(ct & Hclock & [(e & _ & E)
                       |[(g & e & _ & _ & E)
                        |(g & s & v1 & v2 & v3 & v4 & v5 & v6 & _ & Hs
                          & _ & _ & _ & _ & _ & _ & E)]])];
    rewrite E in Hm; try discriminate.
  injection Hm as <-. simpl.
  pose proof (shock_reading_of_table _ _ _ _ "shock_+1pct" Hs) as H1.
  pose proof (shock_reading_of_table _ _ _ _ "shock_-1pct" Hs) as H2.
  pose proof (shock_reading_of_table _ _ _ _ "shock_+5pct" Hs) as H3.
  pose proof (shock_reading_of_table _ _ _ _ "shock_-5pct" Hs) as H4.
  assert (Hone : forall label value shock_pct,
    shock_pct ∈ [0.01; 0.05; -0.01; -0.05] ->
    shock_label shock_pct = Ok label ->
    (forall s, s ∈ [0.01; 0.05; -0.01; -0.05] ->
               shock_label s = Ok label -> s = shock_pct) ->
    shock_reading lib import_time datetime_now config underlying_price ct volatility
      label value ->
    exists greeks,
      calculate_option_greeks (H := Float64 lib) import_time datetime_now
        (underlying_price * (1 + shock_pct)) (Some ct) volatility = Ok greeks /\
      greeks !! "delta" = Some value).
  { intros label value shock_pct Hin Hl Huniq Hr.
    rewrite <- Hset in Hin, Huniq.
    destruct (shock_reading_unique _ _ _ _ _ _ Hin Hl Huniq Hr) as (g' & Hg' & Hv).
    rewrite shock_greeks_reprices in Hg'. eauto. }
  assert (Hlabels :
    shock_label 0.01 = Ok "shock_+1pct" /\ shock_label 0.05 = Ok "shock_+5pct" /\
    shock_label (-0.01) = Ok "shock_-1pct" /\ shock_label (-0.05) = Ok "shock_-5pct")
    by (repeat split; vm_compute; reflexivity).
  destruct Hlabels as (L1 & L2 & L3 & L4).
  assert (Huniq : forall shock_pct label,
    shock_pct ∈ [0.01; 0.05; -0.01; -0.05] -> shock_label shock_pct = Ok label ->
    forall s, s ∈ [0.01; 0.05; -0.01; -0.05] -> shock_label s = Ok label ->
              s = shock_pct).
  { intros shock_pct label Hin Hl s' Hs' Hsl.
    rewrite !elem_of_cons, elem_of_nil in Hin, Hs'.
    destruct Hin as [->|[->|[->|[->|[]]]]], Hs' as [->|[->|[->|[->|[]]]]];
      try reflexivity; rewrite ?L1, ?L2, ?L3, ?L4 in Hl, Hsl; congruence. }
  destruct (Hone "shock_+1pct" _ 0.01 ltac:(repeat constructor) L1
              (Huniq 0.01 _ ltac:(repeat constructor) L1) H1) as (up1 & U1 & V1).
  destruct (Hone "shock_-1pct" _ (-0.01) ltac:(repeat constructor) L3
              (Huniq (-0.01) _ ltac:(repeat constructor) L3) H2) as (down1 & U2 & V2).
  destruct (Hone "shock_+5pct" _ 0.05 ltac:(repeat constructor) L2
              (Huniq 0.05 _ ltac:(repeat constructor) L2) H3) as (up5 & U3 & V3).
  destruct (Hone "shock_-5pct" _ (-0.05) ltac:(repeat constructor) L4
              (Huniq (-0.05) _ ltac:(repeat constructor) L4) H4) as (down5 & U4 & V4).
  exists ct, up1, down1, up5, down5. auto 10.
Qed.
End FullRiskFacts.


(* ================================================================== *)
(** * The statements at concrete inputs *)
(* ================================================================== *)



Lemma detect_events_emits_iff_threshold_witness :
  exists out,
    detect_events default_config "" plain_format
      (warm_detector (metrics_of 0.40 0.002 0 0.25 "STABLE"))
      (metrics_of 0.50 0.002 0.3 0.25 "STABLE") = Ok out /\
    forall g : Greek,
      (emitted (greek_event_type g) (returned out)
       <-> change_rule
             (greek_value g (metrics_of 0.40 0.002 0 0.25 "STABLE"))
             (greek_value g (metrics_of 0.50 0.002 0.3 0.25 "STABLE"))
             (greek_threshold g (risk_thresholds default_config))) /\
      ((1e-10 <=? abs (greek_value g (metrics_of 0.40 0.002 0 0.25 "STABLE")))%float = true ->
       is_nan (greek_threshold g (risk_thresholds default_config)) = false ->
       relative_change
         (greek_value g (metrics_of 0.40 0.002 0 0.25 "STABLE"))
         (greek_value g (metrics_of 0.50 0.002 0.3 0.25 "STABLE"))
       = greek_threshold g (risk_thresholds default_config) ->
       emitted (greek_event_type g) (returned out)).
Proof.
  apply (detect_events_emits_iff_threshold default_config "" plain_format
           (warm_detector (metrics_of 0.40 0.002 0 0.25 "STABLE"))
           (metrics_of 0.40 0.002 0 0.25 "STABLE")
           (metrics_of 0.50 0.002 0.3 0.25 "STABLE")).
  reflexivity.
Defined.

Lemma zero_old_value_severity_is_medium_witness :
  exists out,
    detect_events default_config "" plain_format
      (warm_detector (metrics_of 0.40 0.002 0 0.25 "STABLE"))
      (metrics_of 0.50 0.002 0.3 0.25 "STABLE") = Ok out /\
    forall (e : RiskEvent) (g : Greek),
      e ∈ returned out ->
      event_type e = greek_event_type g ->
      (abs (old_value e) <? 1e-10)%float = true ->
      severity e = "MEDIUM" /\
      (greek_threshold g (risk_thresholds default_config) <? abs (new_value e))%float = true.
Proof.
  apply (zero_old_value_severity_is_medium default_config "" plain_format
           (warm_detector (metrics_of 0.40 0.002 0 0.25 "STABLE"))
           (metrics_of 0.40 0.002 0 0.25 "STABLE")
           (metrics_of 0.50 0.002 0.3 0.25 "STABLE")).
  reflexivity.
Defined.

(** The events of that call: delta rose by a quarter (HIGH), theta left
    zero (MEDIUM, whatever its new size). *)
Example sample_events :
  detect_events default_config "" plain_format
    (warm_detector (metrics_of 0.40 0.002 0 0.25 "STABLE"))
    (metrics_of 0.50 0.002 0.3 0.25 "STABLE")
  = Ok {| returned :=
            change_events plain_format "2024-01-01T00:00:00"
              "DELTA_CHANGE" "Delta" 4 0.40 0.50 0.05 ++
            change_events plain_format "2024-01-01T00:00:00"
              "THETA_CHANGE" "Theta" 4 0 0.3 0.05;
          detector :=
            {| previous_metrics := Some (metrics_of 0.50 0.002 0.3 0.25 "STABLE");
               event_history :=
                 change_events plain_format "2024-01-01T00:00:00"
                   "DELTA_CHANGE" "Delta" 4 0.40 0.50 0.05 ++
                 change_events plain_format "2024-01-01T00:00:00"
                   "THETA_CHANGE" "Theta" 4 0 0.3 0.05;
               max_history_size := 100 |};
          logged := [] |} /\
  List.map severity
    (change_events plain_format "2024-01-01T00:00:00"
       "DELTA_CHANGE" "Delta" 4 0.40 0.50 0.05 ++
     change_events plain_format "2024-01-01T00:00:00"
       "THETA_CHANGE" "Theta" 4 0 0.3 0.05)
  = ["HIGH"; "MEDIUM"].
Proof. split; vm_compute; reflexivity. Qed.

Lemma detect_events_nan_field_silent_witness :
  exists out,
    detect_events default_config "" plain_format
      (warm_detector (metrics_of 0.40 0.002 0 0.25 "STABLE"))
      (metrics_of nan 0.004 0 0.25 "STABLE") = Ok out /\
    previous_metrics (detector out) = Some (metrics_of nan 0.004 0 0.25 "STABLE") /\
    logged out = [] /\
    forall g : Greek,
      (is_nan (greek_value g (metrics_of 0.40 0.002 0 0.25 "STABLE")) = true \/
       is_nan (greek_value g (metrics_of nan 0.004 0 0.25 "STABLE")) = true ->
       ~ emitted (greek_event_type g) (returned out)) /\
      (emitted (greek_event_type g) (returned out)
       <-> change_rule
             (greek_value g (metrics_of 0.40 0.002 0 0.25 "STABLE"))
             (greek_value g (metrics_of nan 0.004 0 0.25 "STABLE"))
             (greek_threshold g (risk_thresholds default_config))).
Proof.
  apply (detect_events_nan_field_silent default_config "" plain_format
           (warm_detector (metrics_of 0.40 0.002 0 0.25 "STABLE"))
           (metrics_of 0.40 0.002 0 0.25 "STABLE")
           (metrics_of nan 0.004 0 0.25 "STABLE")).
  reflexivity.
Defined.

Lemma determine_risk_regime_partition_witness :
  (determine_risk_regime default_config 30 = "STABLE" \/
   determine_risk_regime default_config 30 = "SENSITIVE" \/
   determine_risk_regime default_config 30 = "FRAGILE") /\
  (determine_risk_regime default_config 30 = "STABLE"
   <-> (30 <=? stable_max (risk_thresholds default_config))%float = true) /\
  (determine_risk_regime default_config 30 = "SENSITIVE"
   <-> (stable_max (risk_thresholds default_config) <? 30)%float = true /\
       (30 <=? sensitive_max (risk_thresholds default_config))%float = true) /\
  (determine_risk_regime default_config 30 = "FRAGILE"
   <-> (sensitive_max (risk_thresholds default_config) <? 30)%float = true) /\
  ((30 =? stable_max (risk_thresholds default_config))%float = true ->
   determine_risk_regime default_config 30 = "STABLE") /\
  ((30 =? sensitive_max (risk_thresholds default_config))%float = true ->
   determine_risk_regime default_config 30 = "SENSITIVE").
Proof.
  apply (determine_risk_regime_partition default_config 30); reflexivity.
Defined.

Lemma compute_risk_score_formula_witness :
  compute_risk_score sample_greeks
  = risk_score_formula (get sample_greeks "delta" 0) (get sample_greeks "gamma" 0)
      (get sample_greeks "theta" 0) (get sample_greeks "vega" 0) /\
  is_finite (compute_risk_score sample_greeks) = true /\
  (0 <=? compute_risk_score sample_greeks)%float = true /\
  (compute_risk_score sample_greeks <=? 100)%float = true.
Proof.
  apply (compute_risk_score_formula sample_greeks); vm_compute; reflexivity.
Defined.

(** The score of that dictionary: 0.25 * 45 + 0.35 * 2 = 11.95. *)
Example sample_score : compute_risk_score sample_greeks = 11.95%float.
Proof. vm_compute. reflexivity. Qed.



Lemma detect_events_history_witness :
  exists out,
    detect_events default_config "" plain_format calm_detector moved_snapshot = Ok out /\
    event_history (detector out)
    = drop (length (event_history calm_detector ++ returned out)
            - Z.to_nat (max_history_size calm_detector))
           (event_history calm_detector ++ returned out) /\
    (Z.of_nat (length (event_history (detector out))) <= max_history_size calm_detector)%Z /\
    max_history_size (detector out) = max_history_size calm_detector /\
    ((Z.of_nat (length (returned out)) <= max_history_size calm_detector)%Z ->
     returned out `suffix_of` event_history (detector out)).
Proof.
  apply (detect_events_history
           default_config "" plain_format calm_detector calm_snapshot moved_snapshot);
    reflexivity.
Defined.

Lemma feed_never_halts_witness :
  exists events final,
    feed default_config plain_format RiskEventDetector_new
      [("", calm_snapshot); ("", moved_snapshot)] = Ok (events, final) /\
    length events = length [("", calm_snapshot); ("", moved_snapshot)] /\
    (Z.of_nat (length (event_history final)) <= max_history_size RiskEventDetector_new)%Z /\
    max_history_size final = max_history_size RiskEventDetector_new /\
    previous_metrics final
    = match last [("", calm_snapshot); ("", moved_snapshot)] with
      | Some tick => Some tick.2
      | None => previous_metrics RiskEventDetector_new
      end.
Proof.
  apply (feed_never_halts
           default_config plain_format RiskEventDetector_new
           [("", calm_snapshot); ("", moved_snapshot)]);
    simpl; lia.
Defined.

Lemma regime_change_event_witness :
  (exists out,
     detect_events default_config "" plain_format calm_detector moved_snapshot = Ok out /\
     (emitted "REGIME_CHANGE" (returned out)
      <-> default "UNKNOWN" (m_risk_regime calm_snapshot)
          <> default "UNKNOWN" (m_risk_regime moved_snapshot)) /\
     forall e : RiskEvent,
       e ∈ returned out -> event_type e = "REGIME_CHANGE" ->
       last (returned out) = Some e /\
       old_value e = 0 /\ new_value e = 0 /\ change_pct e = 0 /\
       (severity e = "HIGH"
        <-> Z.abs (regime_level (default "UNKNOWN" (m_risk_regime moved_snapshot))
                   - regime_level (default "UNKNOWN" (m_risk_regime calm_snapshot))) = 2%Z) /\
       (severity e = "MEDIUM"
        <-> Z.abs (regime_level (default "UNKNOWN" (m_risk_regime moved_snapshot))
                   - regime_level (default "UNKNOWN" (m_risk_regime calm_snapshot))) = 1%Z) /\
       (severity e = "LOW"
        <-> regime_level (default "UNKNOWN" (m_risk_regime moved_snapshot))
            = regime_level (default "UNKNOWN" (m_risk_regime calm_snapshot))))%float.
Proof.
  apply (regime_change_event
           default_config "" plain_format calm_detector calm_snapshot moved_snapshot);
    reflexivity.
Defined.

Lemma unknown_regime_change_is_low_witness :
  (exists out e,
     detect_events default_config "" plain_format unnamed_detector sensitive_snapshot = Ok out /\
     last (returned out) = Some e /\
     event_type e = "REGIME_CHANGE" /\ severity e = "LOW")%float.
Proof.
  apply (unknown_regime_change_is_low
           default_config "" plain_format unnamed_detector
           unnamed_snapshot sensitive_snapshot);
    reflexivity.
Defined.

Lemma detect_events_steady_state_witness :
  (exists out,
     detect_events default_config "" plain_format calm_detector calm_snapshot = Ok out /\
     returned out = [] /\
     previous_metrics (detector out) = Some calm_snapshot)%float.
Proof.
  apply (detect_events_steady_state
           default_config "" plain_format calm_detector calm_snapshot);
    [reflexivity | intros []; reflexivity].
Defined.

Lemma greek_event_fields_witness :
  (exists out,
     detect_events default_config "" plain_format calm_detector moved_snapshot = Ok out /\
     forall (e : RiskEvent) (g : Greek),
       e ∈ returned out -> event_type e = greek_event_type g ->
       timestamp e = default "" (m_timestamp moved_snapshot) /\
       old_value e = greek_value g calm_snapshot /\
       new_value e = greek_value g moved_snapshot /\
       (severity e = "HIGH" \/ severity e = "MEDIUM" \/ severity e = "LOW") /\
       ((abs (old_value e) <? 1e-10) = false ->
        change_pct e = (new_value e - old_value e) / old_value e * 100 /\
        (severity e = "HIGH"
         <-> (greek_threshold g (risk_thresholds default_config) * 3
              <=? relative_change (old_value e) (new_value e)) = true) /\
        (severity e = "MEDIUM"
         <-> (greek_threshold g (risk_thresholds default_config) * 3
              <=? relative_change (old_value e) (new_value e)) = false /\
             (greek_threshold g (risk_thresholds default_config) * 1.5
              <=? relative_change (old_value e) (new_value e)) = true) /\
        (severity e = "LOW"
         <-> (greek_threshold g (risk_thresholds default_config) * 1.5
              <=? relative_change (old_value e) (new_value e)) = false /\
             (greek_threshold g (risk_thresholds default_config) * 3
              <=? relative_change (old_value e) (new_value e)) = false)))%float.
Proof.
  apply (greek_event_fields
           default_config "" plain_format calm_detector calm_snapshot moved_snapshot);
    reflexivity.
Defined.

Lemma zero_old_value_change_pct_witness :
  (exists out,
     detect_events default_config "" plain_format calm_detector moved_snapshot = Ok out /\
     forall (e : RiskEvent) (g : Greek),
       e ∈ returned out -> event_type e = greek_event_type g ->
       (abs (old_value e) <? 1e-10) = true ->
       (1e-10 <=? greek_threshold g (risk_thresholds default_config)) = true ->
       change_pct e = 100)%float.
Proof.
  apply (zero_old_value_change_pct
           default_config "" plain_format calm_detector calm_snapshot moved_snapshot);
    reflexivity.
Defined.

Lemma get_recent_events_returns_latest_witness :
  exists out,
    detect_events default_config "" plain_format calm_detector moved_snapshot = Ok out /\
    (returned out <> [] ->
     get_recent_events (detector out) (Z.of_nat (length (returned out)))
     = returned out) /\
    (returned out = [] ->
     get_recent_events (detector out) (Z.of_nat (length (returned out)))
     = event_history (detector out)).
Proof.
  apply (get_recent_events_returns_latest
           default_config "" plain_format calm_detector calm_snapshot moved_snapshot);
    [reflexivity | simpl; lia].
Defined.

Lemma clear_history_keeps_warm_witness :
  exists out out',
    detect_events default_config "" plain_format calm_detector moved_snapshot = Ok out /\
    detect_events default_config "" plain_format (clear_history calm_detector) moved_snapshot
    = Ok out' /\
    event_history (clear_history calm_detector) = [] /\
    returned out' = returned out /\
    event_history (detector out') = returned out.
Proof.
  apply (clear_history_keeps_warm
           default_config "" plain_format calm_detector calm_snapshot moved_snapshot);
    [reflexivity | simpl; lia].
Defined.

Lemma pipeline_regime_change_never_low_witness :
  (exists out,
     detect_events default_config "" plain_format
       (warm_detector (regime_snapshot 20)) (regime_snapshot 70) = Ok out /\
     forall e : RiskEvent,
       e ∈ returned out -> event_type e = "REGIME_CHANGE" ->
       severity e <> "LOW" /\
       (severity e = "HIGH"
        <-> (determine_risk_regime default_config 20 = "STABLE" /\
             determine_risk_regime default_config 70 = "FRAGILE") \/
            (determine_risk_regime default_config 20 = "FRAGILE" /\
             determine_risk_regime default_config 70 = "STABLE")) /\
       (severity e = "MEDIUM"
        <-> determine_risk_regime default_config 20 = "SENSITIVE" \/
            determine_risk_regime default_config 70 = "SENSITIVE"))%float.
Proof.
  apply (pipeline_regime_change_never_low
           default_config "" plain_format default_config 20 70
           (warm_detector (regime_snapshot 20)) (regime_snapshot 20) (regime_snapshot 70));
    reflexivity.
Defined.

Lemma nan_greek_is_fragile_witness :
  (is_nan (compute_risk_score nan_greeks) = true /\
   forall config : SystemConfig,
     determine_risk_regime config (compute_risk_score nan_greeks) = "FRAGILE")%float.
Proof.
  apply (nan_greek_is_fragile
           nan_greeks);
    left; vm_compute; reflexivity.
Defined.

Lemma determine_risk_regime_monotone_witness :
  ((regime_level (determine_risk_regime default_config 20)
    <= regime_level (determine_risk_regime default_config 70))%Z)%float.
Proof.
  apply (determine_risk_regime_monotone
           default_config 20 70);
    reflexivity.
Defined.

Lemma unordered_cutoffs_hide_sensitive_witness :
  (determine_risk_regime unordered_config 50 <> "SENSITIVE" /\
   (determine_risk_regime unordered_config 50 = "STABLE"
    <-> (50 <=? stable_max (risk_thresholds unordered_config)) = true) /\
   (determine_risk_regime unordered_config 50 = "FRAGILE"
    <-> (50 <=? stable_max (risk_thresholds unordered_config)) = false))%float.
Proof.
  apply (unordered_cutoffs_hide_sensitive
           unordered_config 50);
    reflexivity.
Defined.

Lemma compute_shock_scenarios_table_witness :
  (  match sample_scenarios !! "shock_+1pct" with
     | Some greeks =>
         exists before shock_pct after,
           shock_scenarios (risk_thresholds default_config) = before ++ shock_pct :: after /\
           shock_label shock_pct = Ok "shock_+1pct" /\
           (forall s, s ∈ after -> shock_label s <> Ok "shock_+1pct") /\
           shock_greeks (H := Float64 sample_lib) 0%Z 0%Z
             2050 shock_pct (Some 0%Z) 0.2 = Ok greeks
     | None =>
         forall s, s ∈ shock_scenarios (risk_thresholds default_config) ->
                   shock_label s <> Ok "shock_+1pct"
     end)%float.
Proof.
  assert (Htable :
    compute_shock_scenarios sample_lib 0%Z 0%Z default_config
      2050%float (Some 0%Z) 0.2%float
    = Ok sample_scenarios) by (vm_compute; reflexivity).
  exact (compute_shock_scenarios_table
           sample_lib 0%Z 0%Z 2050 (Some 0%Z) 0.2 default_config
           sample_scenarios
           Htable "shock_+1pct").
Defined.

Lemma compute_shock_scenarios_not_finite_witness :
  (exists e,
     compute_shock_scenarios sample_lib 0%Z 0%Z nan_shock_config
       2050 (Some 0%Z) 0.2 = Raise e)%float.
Proof.
  apply (compute_shock_scenarios_not_finite
           sample_lib 0%Z 0%Z 2050 (Some 0%Z) 0.2 nan_shock_config nan);
    [simpl; right; left | reflexivity].
Defined.

Lemma expired_price_and_greeks_witness :
  (black_76_price (H := Float64 sample_lib) 2050 2100 0 0.045 0.2 "call"
   = Ok (if String.eqb "call" "call"
         then F64.py_max (2050 - 2100) 0 else F64.py_max (2100 - 2050) 0) /\
   compute_greeks (H := Float64 sample_lib) 2050 2100 0 0.045 0.2 "call"
   = compute_greeks (H := Float64 sample_lib) 2050 2100 0.0001 0.045 0.2 "call")%float.
Proof.
  apply (expired_price_and_greeks
           sample_lib 2050 2100 0 0.045 0.2 "call");
    reflexivity.
Defined.

Lemma zero_strike_raises_witness :
  (compute_greeks (H := Float64 sample_lib) 2050 0 0.25 0.045 0.2 "call"
   = Raise ZeroDivisionError /\
   ((0.25 <=? 0) = false ->
    black_76_price (H := Float64 sample_lib) 2050 0 0.25 0.045 0.2 "call"
    = Raise ZeroDivisionError))%float.
Proof.
  apply (zero_strike_raises
           sample_lib 2050 0 0.25 0.045 0.2 "call");
    reflexivity.
Defined.






Lemma compute_full_risk_metrics_shock_fields_witness :
  (exists current_time,
     clock_used 0%Z (fun _ => None) "now" current_time /\
     shock_reading sample_lib 0%Z 0%Z default_config
       2050 current_time 0.2 "shock_+1pct" (shock_up_1pct sample_full_metrics) /\
     shock_reading sample_lib 0%Z 0%Z default_config
       2050 current_time 0.2 "shock_-1pct" (shock_down_1pct sample_full_metrics) /\
     shock_reading sample_lib 0%Z 0%Z default_config
       2050 current_time 0.2 "shock_+5pct" (shock_up_5pct sample_full_metrics) /\
     shock_reading sample_lib 0%Z 0%Z default_config
       2050 current_time 0.2 "shock_-5pct" (shock_down_5pct sample_full_metrics))%float.
Proof.
  apply (compute_full_risk_metrics_shock_fields
           sample_lib 0%Z 0%Z default_config (fun _ => None) 2050 "now" "GC" 0.2
           sample_full_metrics);
    vm_compute; reflexivity.
Defined.

Lemma compute_full_risk_metrics_default_shocks_witness :
  (exists current_time up1 down1 up5 down5,
     clock_used 0%Z (fun _ => None) "now" current_time /\
     calculate_option_greeks (H := Float64 sample_lib) 0%Z 0%Z
       (2050 * (1 + 0.01)) (Some current_time) 0.2 = Ok up1 /\
     up1 !! "delta" = Some (shock_up_1pct sample_full_metrics) /\
     calculate_option_greeks (H := Float64 sample_lib) 0%Z 0%Z
       (2050 * (1 + -0.01)) (Some current_time) 0.2 = Ok down1 /\
     down1 !! "delta" = Some (shock_down_1pct sample_full_metrics) /\
     calculate_option_greeks (H := Float64 sample_lib) 0%Z 0%Z
       (2050 * (1 + 0.05)) (Some current_time) 0.2 = Ok up5 /\
     up5 !! "delta" = Some (shock_up_5pct sample_full_metrics) /\
     calculate_option_greeks (H := Float64 sample_lib) 0%Z 0%Z
       (2050 * (1 + -0.05)) (Some current_time) 0.2 = Ok down5 /\
     down5 !! "delta" = Some (shock_down_5pct sample_full_metrics))%float.
Proof.
  apply (compute_full_risk_metrics_default_shocks
           sample_lib 0%Z 0%Z default_config (fun _ => None) 2050 "now" "GC" 0.2
           sample_full_metrics);
    [reflexivity | vm_compute; reflexivity].
Defined.

